(** * datajoint/relation.py: base relations over a database connection

    A shallow embedding of [Relation] and [FreeRelation]: the heading
    accessor, the existence check, insert and its batch forms, delete, drop
    and size reporting.  The methods run in a state-and-exception monad over
    a world made of the connection (server answers, the log of queries it
    received, the dependency graph), the store of Heading objects, the
    configuration and the console.

    The connection, the blob codec, the dependency graph and the text of the
    queries issued by code outside relation.py are collaborators: they are
    fields of the class [Collaborators], and every theorem holds for all of
    them.  The connection is taken to answer each query with a cursor;
    errors raised by the driver propagate unchanged through every method and
    are not modelled.  Calls to the logger are left out: they touch nothing
    the methods read. *)

From Stdlib Require Import List String Ascii Bool ZArith QArith Lia Permutation.
From Stdlib Require Import DecimalString.
Import ListNotations.

Local Open Scope string_scope.
Local Open Scope list_scope.
Local Open Scope Z_scope.

Infix "+++" := String.append (right associativity, at level 60).

(** ** Python string operations used by relation.py *)

Module PyStr.

(** The double-quote and the newline characters. *)
Definition dq : string := String (ascii_of_nat 34) EmptyString.
Definition nl : string := String (ascii_of_nat 10) EmptyString.

(** [sep.join(parts)] *)
Definition join (sep : string) (parts : list string) : string :=
  String.concat sep parts.

(** [s.split(c)] for a one-character separator: always at least one part. *)
Fixpoint split (c : ascii) (s : string) : list string :=
  match s with
  | EmptyString => [EmptyString]
  | String a rest =>
      if Ascii.eqb a c then EmptyString :: split c rest
      else match split c rest with
           | [] => [String a EmptyString]
           | p :: ps => String a p :: ps
           end
  end.

Fixpoint lstrip (c : ascii) (s : string) : string :=
  match s with
  | EmptyString => EmptyString
  | String a rest => if Ascii.eqb a c then lstrip c rest else s
  end.

Fixpoint rstrip (c : ascii) (s : string) : string :=
  match s with
  | EmptyString => EmptyString
  | String a rest =>
      match rstrip c rest with
      | EmptyString => if Ascii.eqb a c then EmptyString else String a EmptyString
      | t => String a t
      end
  end.

(** [s.strip(c)] for a one-character set. *)
Definition strip (c : ascii) (s : string) : string := rstrip c (lstrip c s).

(** ['%d' % n] *)
Definition of_int (n : Z) : string := NilZero.string_of_int (Z.to_int n).

End PyStr.

(** ** Data *)

(** One column of a table, as the Heading describes it. *)
Record Attribute := mkAttribute {
  attr_name : string;
  attr_type : string;
  is_blob : bool;
  nullable : bool
}.

(** Modelled from the spec: the class Heading (datajoint/heading.py) is not
    part of the sources at hand.  It is "a mapping from attribute name to
    attribute descriptor", "empty until first resolved", iterated in column
    order: here the list of its descriptors in that order. *)
Definition Heading := list Attribute.

Definition Blob := list Byte.byte.

(** The arguments of one call of [connection.query]. *)
Record Query := mkQuery {
  sql : string;
  args : list Blob;
  as_dict : bool
}.

(** What relation.py reads from a cursor: the row count, the first row of a
    dictionary cursor, and the column descriptors a metadata query yields. *)
Record Cursor := mkCursor {
  rowcount : Z;
  fetchone : option (list (string * Z));
  columns : Heading
}.

Inductive Exception :=
| KeyError (msg : string)
| DataJointError (msg : string)
| ValueError (msg : string)
| TypeError (msg : string).

Inductive Outcome (A : Type) :=
| Return (a : A)
| Raise (e : Exception).
Arguments Return {A} a.
Arguments Raise {A} e.

Inductive Output :=
| Print (text : string)
| Prompt (message : string) (default : string).

(** A relation object: its attributes.  [_heading] is a reference to a
    Heading object in the store, shared by whoever holds the same reference;
    [where_clause] comes from the operand algebra. *)
Record Relation := mkRelation {
  database : string;
  table_name : string;
  _heading : nat;
  where_clause : string
}.

(** The collaborators of relation.py. *)
Class Collaborators := {
  Value : Type;
  (** Python's [repr] on the values of a record *)
  repr : Value -> string;
  (** blob.pack *)
  pack : Value -> Blob;
  (** the database server behind the connection *)
  Server : Type;
  execute : Server -> Query -> Server * Cursor;
  (** connection.erd *)
  ERD : Type;
  get_descendants : ERD -> string -> list string;
  clear_dependency : ERD -> string -> ERD;
  (** text of the query of Heading.init_from_database *)
  metadata_sql : string -> string -> string;
  (** text of the query of RelationalOperand.__len__ *)
  count_sql : string -> string -> string
}.

(** ** Exceptions without state: the comprehensions of insert *)

Definition obind {A B} (m : Outcome A) (k : A -> Outcome B) : Outcome B :=
  match m with
  | Return a => k a
  | Raise e => Raise e
  end.

(** [[elt(name) for name in names if cond(name)]] *)
Fixpoint comprehension {A} (cond : string -> Outcome bool)
    (elt : string -> Outcome A) (names : list string) : Outcome (list A) :=
  match names with
  | [] => Return []
  | n :: ns =>
      obind (cond n) (fun c =>
        if c then
          obind (elt n) (fun x =>
            obind (comprehension cond elt ns) (fun xs => Return (x :: xs)))
        else comprehension cond elt ns)
  end.

(** [name in d] and [d[name]] on the items of a dictionary. *)
Definition contains {V} (items : list (string * V)) (name : string) : bool :=
  existsb (fun kv => String.eqb name (fst kv)) items.

Definition getitem {V} (items : list (string * V)) (name : string) : Outcome V :=
  match find (fun kv => String.eqb name (fst kv)) items with
  | Some kv => Return (snd kv)
  | None => Raise (KeyError name)
  end.

(** Modelled from the spec: [name in heading], for "a mapping from attribute
    name to attribute descriptor". *)
Definition heading_contains (h : Heading) (name : string) : bool :=
  existsb (fun a => String.eqb name (attr_name a)) h.

(** Modelled from the spec: [heading[name]], the descriptor of the
    attribute of that name. *)
Definition heading_getitem (h : Heading) (name : string) : Outcome Attribute :=
  match find (fun a => String.eqb name (attr_name a)) h with
  | Some a => Return a
  | None => Raise (KeyError name)
  end.

(** Modelled from the spec: iteration over a Heading gives the attribute
    names in column order. *)
Definition heading_iter (h : Heading) : list string := map attr_name h.

(** Modelled from the spec: the truth value of a Heading; it is "empty
    until first resolved", and an empty mapping is false. *)
Definition heading_bool (h : Heading) : bool :=
  match h with [] => false | _ :: _ => true end.

(** ** The world and the monad of the methods *)

Section Methods.

Context `{Collab : Collaborators}.

(** Input of insert: a numpy structured row ([np.void], with the fields of
    its dtype), a Mapping, or a value of any other type. *)
Inductive Tuple :=
| Void (fields : list (string * Value))
| Mapping (items : list (string * Value))
| Other (type_repr : string).

Record World := mkWorld {
  server : Server;               (* connection: the server behind it *)
  queries : list Query;          (* connection: calls of query, oldest first *)
  erd : ERD;                     (* connection.erd *)
  heap : list Heading;           (* the Heading objects, by reference *)
  safemode : bool;               (* config['safemode'] *)
  answers : list string;         (* what the user types at the next prompts *)
  console : list Output          (* what was printed, oldest first *)
}.

Definition M (A : Type) : Type := World -> Outcome A * World.

Definition ret {A} (a : A) : M A := fun w => (Return a, w).

Definition raise {A} (e : Exception) : M A := fun w => (Raise e, w).

Definition bind {A B} (m : M A) (k : A -> M B) : M B :=
  fun w =>
    match m w with
    | (Return a, w') => k a w'
    | (Raise e, w') => (Raise e, w')
    end.

Definition lift {A} (o : Outcome A) : M A := fun w => (o, w).

Notation "x <- m ;; k" := (bind m (fun x => k))
  (at level 61, m at next level, right associativity).
Notation "m ;; k" := (bind m (fun _ => k))
  (at level 61, right associativity).

(** [for x in xs: body(x)] *)
Fixpoint for_each {A} (body : A -> M unit) (xs : list A) : M unit :=
  match xs with
  | [] => ret tt
  | x :: rest => body x ;; for_each body rest
  end.

(** *** Primitive effects *)

(** [connection.query(sql, args, as_dict)] *)
Definition connection_query (q : Query) : M Cursor :=
  fun w =>
    let (s, cur) := execute (server w) q in
    (Return cur,
     mkWorld s (queries w ++ [q]) (erd w) (heap w) (safemode w)
             (answers w) (console w)).

Definition print (text : string) : M unit :=
  fun w =>
    (Return tt,
     mkWorld (server w) (queries w) (erd w) (heap w) (safemode w)
             (answers w) (console w ++ [Print text])).

(** Modelled from the spec: the prompt of utils.user_choice, which is not
    part of the sources at hand; "prompt(message, default) -> 'yes'|'no'".
    The message is shown and a line is read; an empty line stands for the
    default; the question is asked again until the answer is yes or no.
    Lines not typed yet read as empty ones.  The result is the answer, the
    lines left, and the console. *)
Fixpoint ask (message default : string) (typed : list string)
    (shown : list Output) : string * list string * list Output :=
  match typed with
  | [] => (default, [], shown ++ [Prompt message default])
  | line :: rest =>
      let response := if String.eqb line EmptyString then default else line in
      if (String.eqb response "yes" || String.eqb response "no")%bool
      then (response, rest, shown ++ [Prompt message default])
      else ask message default rest (shown ++ [Prompt message default])
  end.

(** Modelled from the spec: utils.user_choice is not part of the sources at
    hand; "prompt(message, default) -> 'yes'|'no'".  It asks on the console
    and returns the answer. *)
Definition user_choice (message default : string) : M string :=
  fun w =>
    let '(choice, rest, shown) :=
      ask message default (answers w) (console w) in
    (Return choice,
     mkWorld (server w) (queries w) (erd w) (heap w) (safemode w) rest shown).

Definition config_safemode : M bool := fun w => (Return (safemode w), w).

(** [Heading()]: a new, empty Heading object. *)
Definition new_heading : M nat :=
  fun w =>
    (Return (List.length (heap w)),
     mkWorld (server w) (queries w) (erd w) (heap w ++ [[]]) (safemode w)
             (answers w) (console w)).

Definition read_heading (ref : nat) : M Heading :=
  fun w => (Return (nth ref (heap w) []), w).

Fixpoint assign {A} (i : nat) (x : A) (l : list A) : list A :=
  match l, i with
  | [], _ => []
  | _ :: t, O => x :: t
  | y :: t, S j => y :: assign j x t
  end.

Definition write_heading (ref : nat) (h : Heading) : M unit :=
  fun w =>
    (Return tt,
     mkWorld (server w) (queries w) (erd w) (assign ref h (heap w))
             (safemode w) (answers w) (console w)).

Definition erd_get_descendants (name : string) : M (list string) :=
  fun w => (Return (get_descendants (erd w) name), w).

Definition erd_clear_dependency (name : string) : M unit :=
  fun w =>
    (Return tt,
     mkWorld (server w) (queries w) (clear_dependency (erd w) name) (heap w)
             (safemode w) (answers w) (console w)).

(** Modelled from the spec: Heading.init_from_database is not part of the
    sources at hand; the heading "issues exactly one metadata query to
    populate itself".  The Heading object is filled in place. *)
Definition init_from_database (ref : nat) (db tbl : string) : M unit :=
  cur <- connection_query (mkQuery (metadata_sql db tbl) [] false) ;;
  write_heading ref (columns cur).

(** *** Relation *)

(** [full_table_name]: [r"`{0:s}`.`{1:s}`".format(database, table_name)] *)
Definition full_table_name (r : Relation) : string :=
  "`" +++ database r +++ "`.`" +++ table_name r +++ "`".

Definition from_clause (r : Relation) : string := full_table_name r.

Definition show_tables_sql (r : Relation) : string :=
  "SHOW TABLES in `" +++ database r +++ "`LIKE " +++ PyStr.dq
    +++ table_name r +++ PyStr.dq.

Definition is_declared (r : Relation) : M bool :=
  cur <- connection_query (mkQuery (show_tables_sql r) [] false) ;;
  ret (0 <? rowcount cur).

Definition heading (r : Relation) : M Heading :=
  h <- read_heading (_heading r) ;;
  (if negb (heading_bool h) then
     declared <- is_declared r ;;
     if declared then init_from_database (_heading r) (database r) (table_name r)
     else ret tt
   else ret tt) ;;
  read_heading (_heading r).

(** *** insert *)

(** [for fieldname in names: if fieldname not in heading: raise KeyError] *)
Fixpoint check_fields (h : Heading) (names : list string) : Outcome unit :=
  match names with
  | [] => Return tt
  | fieldname :: rest =>
      if negb (heading_contains h fieldname)
      then Raise (KeyError (fieldname +++ " is not in the attribute list"))
      else check_fields h rest
  end.

(** [repr(tup[name]) if not heading[name].is_blob else '%s'] *)
Definition value_cell (h : Heading) (fields : list (string * Value))
    (name : string) : Outcome string :=
  obind (heading_getitem h name) (fun a =>
    if negb (is_blob a)
    then obind (getitem fields name) (fun v => Return (repr v))
    else Return "%s").

(** [name in tup and heading[name].is_blob] *)
Definition is_blob_field (h : Heading) (fields : list (string * Value))
    (name : string) : Outcome bool :=
  if contains fields name
  then obind (heading_getitem h name) (fun a => Return (is_blob a))
  else Return false.

Definition value_list (h : Heading) (fields : list (string * Value))
    : Outcome string :=
  obind (comprehension (fun name => Return (contains fields name))
           (value_cell h fields) (heading_iter h))
        (fun cells => Return (PyStr.join "," cells)).

Definition args_tuple (h : Heading) (fields : list (string * Value))
    : Outcome (list Blob) :=
  comprehension (is_blob_field h fields)
    (fun name => obind (getitem fields name) (fun v => Return (pack v)))
    (heading_iter h).

Definition attribute_list (h : Heading) (fields : list (string * Value))
    : Outcome string :=
  obind (comprehension (fun name => Return (contains fields name))
           (fun name => Return name) (heading_iter h))
        (fun names => Return ("`" +++ PyStr.join "`,`" names +++ "`")).

(** The body of either branch of insert: the check of the field names,
    then value_list, args and attribute_list, in that order. *)
Definition record_parts (h : Heading) (fields : list (string * Value))
    : Outcome (string * list Blob * string) :=
  obind (check_fields h (map fst fields)) (fun _ =>
  obind (value_list h fields) (fun values =>
  obind (args_tuple h fields) (fun args =>
  obind (attribute_list h fields) (fun attributes =>
  Return (values, args, attributes))))).

Definition insert_verb (ignore_errors replace : bool) : string :=
  if replace then "REPLACE"
  else if ignore_errors then "INSERT IGNORE"
  else "INSERT".

Definition insert_sql (r : Relation) (ignore_errors replace : bool)
    (attributes values : string) : string :=
  insert_verb ignore_errors replace
    +++ " INTO " +++ from_clause r +++ " (" +++ attributes
    +++ ") VALUES (" +++ values +++ ")".

Definition insert (r : Relation) (tup : Tuple)
    (ignore_errors replace : bool) : M unit :=
  h <- heading r ;;
  parts <- lift
    match tup with
    | Void fields => record_parts h fields
    | Mapping items => record_parts h items
    | Other type_repr =>
        Raise (DataJointError
                 ("Datatype " +++ type_repr +++ " cannot be inserted"))
    end ;;
  let '(values, args, attributes) := parts in
  connection_query
    (mkQuery (insert_sql r ignore_errors replace attributes values) args false) ;;
  ret tt.

(** The keyword arguments passed on by iter_insert and batch_insert. *)
Record Kwargs := mkKwargs {
  kw_ignore_errors : option bool;
  kw_replace : option bool
}.

Definition insert_kw (r : Relation) (tup : Tuple) (kwargs : Kwargs) : M unit :=
  insert r tup
    (match kw_ignore_errors kwargs with Some b => b | None => false end)
    (match kw_replace kwargs with Some b => b | None => false end).

Definition iter_insert (r : Relation) (rows : list Tuple) (kwargs : Kwargs)
    : M unit :=
  for_each (fun row => insert_kw r row kwargs) rows.

Definition batch_insert (r : Relation) (data : list Tuple) (kwargs : Kwargs)
    : M unit :=
  iter_insert r data kwargs.

(** *** delete *)

Definition delete_quick (r : Relation) : M unit :=
  connection_query
    (mkQuery ("DELETE FROM " +++ from_clause r +++ where_clause r) [] false) ;;
  ret tt.

Definition delete_prompt : string :=
  "You are about to delete data from a table. This operation cannot be undone."
    +++ PyStr.nl +++ "Proceed?".

Definition delete (r : Relation) : M unit :=
  safe <- config_safemode ;;
  proceed <- (if negb safe then ret true
              else choice <- user_choice delete_prompt "no" ;;
                   ret (String.eqb choice "yes")) ;;
  if proceed then delete_quick r else ret tt.

(** *** drop *)

Definition drop_quick (r : Relation) : M unit :=
  declared <- is_declared r ;;
  if declared then
    connection_query (mkQuery ("DROP TABLE " +++ full_table_name r) [] false) ;;
    erd_clear_dependency (full_table_name r)
  else ret tt.

(** [FreeRelation(connection, full_table_name)].  A relation fresh from its
    constructor carries no restriction. *)
Definition FreeRelation (name : string) : M Relation :=
  match PyStr.split "." name with
  | [db; tbl] =>
      ref <- new_heading ;;
      ret (mkRelation (PyStr.strip "`" db) (PyStr.strip "`" tbl) ref EmptyString)
  | [] | [_] =>
      raise (ValueError "not enough values to unpack (expected 2, got 1)")
  | _ => raise (ValueError "too many values to unpack (expected 2)")
  end.

(** [[relation for relation in (FreeRelation(connection, table) for table in
    tables) if relation.is_declared]] *)
Fixpoint declared_relations (tables : list string) : M (list Relation) :=
  match tables with
  | [] => ret []
  | table :: rest =>
      relation <- FreeRelation table ;;
      declared <- is_declared relation ;;
      others <- declared_relations rest ;;
      ret (if declared then relation :: others else others)
  end.

Definition descendants (r : Relation) : M (list Relation) :=
  tables <- erd_get_descendants (full_table_name r) ;;
  declared_relations tables.

(** Modelled from the spec: RelationalOperand.__len__ is not part of the
    sources at hand; drop "prints the full list with row counts", which
    takes one counting query per relation. *)
Definition relation_len (r : Relation) : M Z :=
  cur <- connection_query
           (mkQuery (count_sql (from_clause r) (where_clause r)) [] false) ;;
  ret (rowcount cur).

(** [relations.pop()] on a non-empty list: the last element and the rest. *)
Definition pop {A} (l : list A) : option (A * list A) :=
  match rev l with
  | [] => None
  | x :: front => Some (x, rev front)
  end.

(** [while relations: relations.pop().drop_quick()].  The loop runs once
    per element, so [fuel] at least the length of the list is enough (see
    [drop_loop_for_each]). *)
Fixpoint drop_loop (fuel : nat) (relations : list Relation) : M unit :=
  match fuel with
  | O => ret tt
  | S fuel' =>
      match pop relations with
      | None => ret tt
      | Some (relation, rest) => drop_quick relation ;; drop_loop fuel' rest
      end
  end.

Definition announce (relation : Relation) : M unit :=
  n <- relation_len relation ;;
  print (full_table_name relation +++ " " +++ "(" +++ PyStr.of_int n +++ " tuples)").

(** The value of [do_drop]: true, or in safe mode what the user answers
    once the tables were listed. *)
Definition confirm_drop (relations : list Relation) : M bool :=
  safe <- config_safemode ;;
  if safe then
    print "The following tables are about to be dropped:" ;;
    for_each announce relations ;;
    choice <- user_choice "Proceed?" "no" ;;
    ret (String.eqb choice "yes")
  else ret true.

Definition drop (r : Relation) : M unit :=
  relations <- descendants r ;;
  do_drop <- confirm_drop relations ;;
  if do_drop then
    drop_loop (List.length relations) relations ;;
    print "Dropped tables.."
  else ret tt.

(** *** size_on_disk *)

Definition status_sql (r : Relation) : string :=
  "SHOW TABLE STATUS FROM `" +++ database r +++ "` WHERE NAME=" +++ PyStr.dq
    +++ table_name r +++ PyStr.dq.

(** The quotient is the exact value of Python's true division of two
    integers; rounding to a float is left out. *)
Definition size_on_disk (r : Relation) : M Q :=
  cur <- connection_query (mkQuery (status_sql r) [] true) ;;
  match fetchone cur with
  | None => raise (TypeError "'NoneType' object is not subscriptable")
  | Some row =>
      data_length <- lift (getitem row "Data_length") ;;
      index_length <- lift (getitem row "Index_length") ;;
      ret (inject_Z (data_length + index_length) / inject_Z (1024 ^ 2))%Q
  end.

End Methods.

(** ** What the claims speak of, in closed form *)

Section Reference.

Context `{Collab : Collaborators}.

(** The fields of a record that insert accepts. *)
Definition tuple_fields (tup : Tuple) : option (list (string * Value)) :=
  match tup with
  | Void fields => Some fields
  | Mapping items => Some items
  | Other _ => None
  end.

(** Every field name of the record is in the heading. *)
Definition valid_fields (h : Heading) (fields : list (string * Value)) : bool :=
  forallb (heading_contains h) (map fst fields).

(** The heading's names, in heading order, restricted to the fields of the
    record. *)
Definition columns_present (h : Heading) (fields : list (string * Value))
    : list string :=
  filter (contains fields) (heading_iter h).

Definition column_is_blob (h : Heading) (name : string) : bool :=
  match find (fun a => String.eqb name (attr_name a)) h with
  | Some a => is_blob a
  | None => false
  end.

Definition field_value (fields : list (string * Value)) (name : string)
    : option Value :=
  option_map snd (find (fun kv => String.eqb name (fst kv)) fields).

(** What one column contributes to the VALUES clause: the placeholder for
    a blob, the literal otherwise. *)
Definition cell_text (h : Heading) (fields : list (string * Value))
    (name : string) : string :=
  if column_is_blob h name then "%s"
  else match field_value fields name with
       | Some v => repr v
       | None => EmptyString
       end.

Definition blob_columns (h : Heading) (fields : list (string * Value))
    : list string :=
  filter (column_is_blob h) (columns_present h fields).

Definition packed (fields : list (string * Value)) (name : string)
    : list Blob :=
  match field_value fields name with
  | Some v => [pack v]
  | None => []
  end.

(** The query of one record: columns and cells in the order of
    [columns_present], one packed argument per blob column. *)
Definition statement (r : Relation) (h : Heading)
    (fields : list (string * Value)) (ignore_errors replace : bool) : Query :=
  mkQuery
    (insert_sql r ignore_errors replace
       ("`" +++ PyStr.join "`,`" (columns_present h fields) +++ "`")
       (PyStr.join "," (map (cell_text h fields) (columns_present h fields))))
    (flat_map (packed fields) (blob_columns h fields))
    false.

Definition statement_kw (r : Relation) (h : Heading) (kwargs : Kwargs)
    (tup : Tuple) : Query :=
  statement r h
    (match tuple_fields tup with Some fields => fields | None => [] end)
    (match kw_ignore_errors kwargs with Some b => b | None => false end)
    (match kw_replace kwargs with Some b => b | None => false end).

Definition valid_tuple (h : Heading) (tup : Tuple) : bool :=
  match tuple_fields tup with
  | Some fields => valid_fields h fields
  | None => false
  end.

(** The world once the connection has run one more query. *)
Definition after_query (q : Query) (w : World) : World :=
  snd (connection_query q w).

Definition after_queries (qs : list Query) (w : World) : World :=
  fold_left (fun w q => after_query q w) qs w.

(** N successive calls of insert, the world of each handed to the next;
    an exception ends the sequence. *)
Fixpoint successive_inserts (r : Relation) (kwargs : Kwargs)
    (rows : list Tuple) (w : World) : Outcome unit * World :=
  match rows with
  | [] => (Return tt, w)
  | row :: rest =>
      match insert_kw r row kwargs w with
      | (Return _, w') => successive_inserts r kwargs rest w'
      | (Raise e, w') => (Raise e, w')
      end
  end.

(** The existence check and the metadata query of a relation. *)
Definition existence_query (r : Relation) : Query :=
  mkQuery (show_tables_sql r) [] false.

Definition metadata_query (r : Relation) : Query :=
  mkQuery (metadata_sql (database r) (table_name r)) [] false.

Definition drop_query (r : Relation) : Query :=
  mkQuery ("DROP TABLE " +++ full_table_name r) [] false.

Definition status_query (r : Relation) : Query :=
  mkQuery (status_sql r) [] true.

(** The Heading object of a relation, as it stands in a world. *)
Definition cached_heading (r : Relation) (w : World) : Heading :=
  nth (_heading r) (heap w) [].

(** Two worlds that differ at most in what is on the console and in the
    input not yet read. *)
Definition same_state (w w' : World) : Prop :=
  server w' = server w /\ queries w' = queries w /\ erd w' = erd w
  /\ heap w' = heap w /\ safemode w' = safemode w.

(** The queries the heading accessor issues in a world: none when the
    Heading object is loaded; otherwise the existence check, followed by
    the metadata query when the table exists. *)
Definition table_exists (r : Relation) (w : World) : bool :=
  0 <? rowcount (snd (execute (server w) (existence_query r))).

Definition resolution_queries (r : Relation) (w : World) : list Query :=
  if heading_bool (cached_heading r w) then []
  else if table_exists r w then [existence_query r; metadata_query r]
  else [existence_query r].

(** The same kind of record with other fields. *)
Definition with_fields (tup : Tuple) (fields : list (string * Value)) : Tuple :=
  match tup with
  | Void _ => Void fields
  | Mapping _ => Mapping fields
  | Other t => Other t
  end.


End Reference.



(** ** Closed forms for the rest of relation.py *)

(** How many times a character occurs in a string. *)
Fixpoint count_char (c : ascii) (s : string) : nat :=
  match s with
  | EmptyString => O
  | String a rest =>
      if Ascii.eqb a c then S (count_char c rest) else count_char c rest
  end.

(** The elements of a list whose flag is set. *)
Fixpoint select {A} (flags : list bool) (l : list A) : list A :=
  match flags, l with
  | true :: fs, x :: xs => x :: select fs xs
  | false :: fs, _ :: xs => select fs xs
  | _, _ => []
  end.

(** The database and table a full table name stands for, when it has
    exactly one dot. *)
Definition parse_name (name : string) : option (string * string) :=
  match PyStr.split "." name with
  | [db; tbl] => Some (PyStr.strip "`" db, PyStr.strip "`" tbl)
  | _ => None
  end.

(** The relations built one after the other from a list of names, the
    first with the Heading reference [ref], the next with the following
    one, up to the first name that does not parse. *)
Fixpoint built (ref : nat) (names : list string) : list Relation :=
  match names with
  | [] => []
  | name :: rest =>
      match parse_name name with
      | Some (db, tbl) => mkRelation db tbl ref EmptyString :: built (S ref) rest
      | None => []
      end
  end.

Section Further_reference.

Context `{Collab : Collaborators}.

Definition count_query (r : Relation) : Query :=
  mkQuery (count_sql (from_clause r) (where_clause r)) [] false.

Definition delete_query (r : Relation) : Query :=
  mkQuery ("DELETE FROM " +++ from_clause r +++ where_clause r) [] false.

(** Two worlds with the same dependency graph, configuration, console and
    pending input. *)
Definition same_surroundings (w w' : World) : Prop :=
  erd w' = erd w /\ safemode w' = safemode w
  /\ answers w' = answers w /\ console w' = console w.

(** The answers of the existence checks that descendants sends for a list
    of relations, one after the other, from a state of the server. *)
Fixpoint declared_flags (s : Server) (rels : list Relation) : list bool :=
  match rels with
  | [] => []
  | rel :: rest =>
      let (s', cur) := execute s (existence_query rel) in
      (0 <? rowcount cur) :: declared_flags s' rest
  end.


(** One call of insert in a batch, from the world it starts in: the heading
    its accessor resolves, the statement of its record, and the world it
    leaves when the record is valid. *)
Definition call_heading (r : Relation) (w : World) : Heading :=
  cached_heading r (snd (heading r w)).

Definition call_statement (r : Relation) (kwargs : Kwargs) (row : Tuple)
    (w : World) : Query :=
  statement_kw r (call_heading r w) kwargs row.

Definition after_call (r : Relation) (kwargs : Kwargs) (row : Tuple)
    (w : World) : World :=
  after_query (call_statement r kwargs row w) (snd (heading r w)).

(** Every record of a batch is valid for the heading its own call
    resolves. *)
Fixpoint batch_valid (r : Relation) (kwargs : Kwargs) (rows : list Tuple)
    (w : World) : bool :=
  match rows with
  | [] => true
  | row :: rest =>
      valid_tuple (call_heading r w) row
      && batch_valid r kwargs rest (after_call r kwargs row w)
  end.

(** The calls of a batch, one per record: the queries of the heading
    resolution of the call, and the statement of its record. *)
Fixpoint batch_calls (r : Relation) (kwargs : Kwargs) (rows : list Tuple)
    (w : World) : list (list Query * Query) :=
  match rows with
  | [] => []
  | row :: rest =>
      (resolution_queries r w, call_statement r kwargs row w)
        :: batch_calls r kwargs rest (after_call r kwargs row w)
  end.

(** The Heading objects other than the one at [ref] are the same in both
    worlds, and no object was added or removed. *)
Definition same_headings_but (ref : nat) (w w' : World) : Prop :=
  List.length (heap w') = List.length (heap w)
  /\ forall other, other <> ref -> nth other (heap w') [] = nth other (heap w) [].

End Further_reference.

(** ** schema: binding a class to a database *)

Section Registration.

Context `{Collab : Collaborators}.

(** The declaration compiler, [declare(full_table_name, definition,
    context)] with the context fixed: the DDL text or the exception it
    raises. *)
Variable declare : string -> string -> Outcome string.

(** [connection.erd.load_dependencies(connection, full_table_name)]. *)
Variable load_dependencies : string -> M unit.

(** Whether the driver raises OperationalError on a query, the server being
    in a given state.  It is read where schema catches that exception. *)
Variable operational_error : Server -> Query -> bool.

Definition show_databases_query (database : string) : Query :=
  mkQuery ("SHOW DATABASES LIKE '" +++ database +++ "'") [] false.

Definition create_database_query (database : string) : Query :=
  mkQuery ("CREATE DATABASE `" +++ database +++ "`") [] false.

Definition creation_failed (database : string) : Exception :=
  DataJointError
    ("Database named `" +++ database +++ "` was not defined, and"
       +++ "an attempt to create has failed. Check" +++ " permissions.").

Notation "x <- m ;; k" := (bind m (fun x => k))
  (at level 61, m at next level, right associativity).
Notation "m ;; k" := (bind m (fun _ => k))
  (at level 61, right associativity).

(** [try: connection.query(sql) except pymysql.OperationalError: raise
    error]: the query is sent; when the driver raises, the error takes the
    place of the cursor. *)
Definition query_or_raise (q : Query) (error : Exception) : M unit :=
  fun w =>
    if operational_error (server w) q
    then (Raise error, after_query q w)
    else (Return tt, after_query q w).

(** The body of schema up to the point where it returns the decorator. *)
Definition schema (database : string) : M unit :=
  cur <- connection_query (show_databases_query database) ;;
  if rowcount cur =? 0 then
    query_or_raise (create_database_query database) (creation_failed database)
  else ret tt.

(** The decorator that schema returns, applied to a class with the given
    table name and definition.  The class gets a new Heading object; the
    relation returned stands for the class and its instances. *)
Definition decorator (database table_name definition : string) : M Relation :=
  ref <- new_heading ;;
  let instance := mkRelation database table_name ref EmptyString in
  h <- heading instance ;;
  (if negb (heading_bool h) then
     ddl <- lift (declare (full_table_name instance) definition) ;;
     connection_query (mkQuery ddl [] false) ;;
     ret tt
   else ret tt) ;;
  load_dependencies (full_table_name instance) ;;
  ret instance.

End Registration.

(** ** A small concrete setting: a lab database of three tables *)

Module Lab.

Inductive PyValue :=
| PyInt (n : Z)
| PyText (s : string)
| PyBytes (b : Blob).

Definition py_repr (v : PyValue) : string :=
  match v with
  | PyInt n => PyStr.of_int n
  | PyText s => "'" +++ s +++ "'"
  | PyBytes b => "b'" +++ string_of_list_byte b +++ "'"
  end.

Definition py_pack (v : PyValue) : Blob :=
  match v with
  | PyInt n => Byte.x01 :: list_byte_of_string (PyStr.of_int n)
  | PyText s => Byte.x02 :: list_byte_of_string s
  | PyBytes b => Byte.x03 :: b
  end.

(** The tables of the lab, each with its columns and the tables that
    depend on it, parents before children. *)
Record Table := mkTable {
  t_relation : Relation;
  t_columns : Heading;
  t_data_length : Z;
  t_index_length : Z
}.

Definition subject_columns : Heading :=
  [ mkAttribute "subject_id" "int" false false;
    mkAttribute "species" "varchar(30)" false true;
    mkAttribute "photo" "longblob" true true ].

Definition session_columns : Heading :=
  [ mkAttribute "subject_id" "int" false false;
    mkAttribute "session" "int" false false ].

Definition scan_columns : Heading :=
  [ mkAttribute "subject_id" "int" false false;
    mkAttribute "session" "int" false false;
    mkAttribute "frames" "longblob" true true ].

Definition subject : Relation := mkRelation "lab" "subject" 0 EmptyString.
Definition session : Relation := mkRelation "lab" "session" 1 EmptyString.
Definition scan : Relation := mkRelation "lab" "scan" 2 EmptyString.

Definition all_tables : list Table :=
  [ mkTable subject subject_columns (2 ^ 30) 0;
    mkTable session session_columns 16384 16384;
    mkTable scan scan_columns 49152 16384 ].

Definition lab_metadata_sql (db tbl : string) : string :=
  "SHOW FULL COLUMNS FROM `" +++ tbl +++ "` IN `" +++ db +++ "`".

Definition lab_count_sql (from_ where_ : string) : string :=
  "SELECT count(*) FROM " +++ from_ +++ where_.

(** The server holds the tables that exist.  It answers the existence
    check, the metadata query and the status query of an existing table,
    removes a table on DROP TABLE, and answers anything else with an empty
    cursor. *)
Definition no_rows : Cursor := mkCursor 0 None [].

Fixpoint lab_execute (tables : list Table) (q : Query)
    : list Table * Cursor :=
  match tables with
  | [] => ([], no_rows)
  | t :: rest =>
      let r := t_relation t in
      if String.eqb (sql q) (show_tables_sql r) then
        (tables, mkCursor 1 None [])
      else if String.eqb (sql q)
                (lab_metadata_sql (database r) (table_name r)) then
        (tables, mkCursor (Z.of_nat (List.length (t_columns t))) None
                   (t_columns t))
      else if String.eqb (sql q) (status_sql r) then
        (tables,
         mkCursor 1 (Some [("Name", 0); ("Data_length", t_data_length t);
                           ("Index_length", t_index_length t)]) [])
      else if String.eqb (sql q) ("DROP TABLE " +++ full_table_name r) then
        (rest, no_rows)
      else
        let (rest', cur) := lab_execute rest q in (t :: rest', cur)
  end.

(** The dependency graph: for each table, its descendants in order of
    dependence, the table itself first. *)
Definition Graph := list (string * list string).

Definition lab_get_descendants (g : Graph) (name : string) : list string :=
  match find (fun kv => String.eqb name (fst kv)) g with
  | Some kv => snd kv
  | None => [name]
  end.

Definition lab_clear_dependency (g : Graph) (name : string) : Graph :=
  map (fun kv => (fst kv, filter (fun n => negb (String.eqb n name)) (snd kv)))
      (filter (fun kv => negb (String.eqb (fst kv) name)) g).

Definition lab_graph : Graph :=
  [ (full_table_name subject,
     [full_table_name subject; full_table_name session; full_table_name scan]);
    (full_table_name session,
     [full_table_name session; full_table_name scan]);
    (full_table_name scan, [full_table_name scan]) ].

#[global] Instance lab : Collaborators := {|
  Value := PyValue;
  repr := py_repr;
  pack := py_pack;
  Server := list Table;
  execute := lab_execute;
  ERD := Graph;
  get_descendants := lab_get_descendants;
  clear_dependency := lab_clear_dependency;
  metadata_sql := lab_metadata_sql;
  count_sql := lab_count_sql
|}.

(** The world right after the three classes were bound to their tables,
    which already existed: three Heading objects, none loaded yet, safe
    mode off. *)
Definition fresh : World :=
  mkWorld all_tables [] lab_graph [[]; []; []] false [] [].

(** The same with the headings of the three tables loaded. *)
Definition loaded : World :=
  mkWorld all_tables [] lab_graph
          [subject_columns; session_columns; scan_columns] false [] [].

Definition with_safemode (typed : list string) (w : World) : World :=
  mkWorld (server w) (queries w) (erd w) (heap w) true typed (console w).


(** The relations that descendants builds for subject in a world with
    three Heading objects: three new objects, one for each. *)
Definition listed : list Relation :=
  [ mkRelation "lab" "subject" 3 EmptyString;
    mkRelation "lab" "session" 4 EmptyString;
    mkRelation "lab" "scan" 5 EmptyString ].

Definition mouse_fields : list (string * PyValue) :=
  [("species", PyText "mouse"); ("subject_id", PyInt 7)].

Definition photo_fields : list (string * PyValue) :=
  [("photo", PyBytes [Byte.xff; Byte.x00]); ("subject_id", PyInt 7);
   ("species", PyText "mouse")].

Definition weight_fields : list (string * PyValue) :=
  [("subject_id", PyInt 7); ("weight", PyInt 21)].

Definition no_kwargs : Kwargs := mkKwargs None None.

(** A world where the server holds no table. *)
Definition absent : World :=
  mkWorld [] [] lab_graph [[]; []; []] false [] [].

(** The subject relation under a restriction: another object of the same
    class, holding the same Heading object. *)
Definition subject_seven : Relation :=
  mkRelation "lab" "subject" 0 " WHERE subject_id=7".

(** A dependency graph with a name that has no dot among the descendants
    of subject, and a world with that graph. *)
Definition broken_graph : Graph :=
  [ (full_table_name subject,
     [full_table_name subject; "lab_session"; full_table_name scan]) ].

Definition broken : World :=
  mkWorld all_tables [] broken_graph [[]; []; []] false [] [].

(** The lab once the table of session is gone while the graph still lists
    it: the tables left, a world on them with safe mode on and the answers
    to come, and the relations descendants finds for subject there. *)
Definition tables_without_session : list Table :=
  [ mkTable subject subject_columns (2 ^ 30) 0;
    mkTable scan scan_columns 49152 16384 ].

Definition without_session (typed : list string) : World :=
  mkWorld tables_without_session [] lab_graph [[]; []; []] true typed [].

Definition listed_without_session : list Relation :=
  [ mkRelation "lab" "subject" 3 EmptyString;
    mkRelation "lab" "scan" 5 EmptyString ].

(** A world whose graph lists nothing under subject. *)
Definition unlisted : World :=
  mkWorld all_tables [] [(full_table_name subject, [])] [[]] false [] [].

(** A declaration compiler that accepts every definition but the empty
    one, a loading of dependencies that leaves the world alone, and two
    drivers: one that never raises, one that always does. *)
Definition lab_declare (name definition : string) : Outcome string :=
  if String.eqb definition EmptyString
  then Raise (DataJointError "Table definition is empty")
  else Return ("CREATE TABLE " +++ name +++ " (" +++ definition +++ ")").

Definition lab_load_dependencies (name : string) : M unit := ret tt.

Definition driver_obeys : Server -> Query -> bool := fun _ _ => false.

Definition driver_refuses : Server -> Query -> bool := fun _ _ => true.

Definition mouse : Tuple :=
  Mapping mouse_fields.

Definition mouse_with_photo : Tuple :=
  Mapping photo_fields.

Definition mouse_with_weight : Tuple :=
  Mapping weight_fields.

End Lab.

(** ** Properties *)

Ltac run := unfold bind, ret, raise, lift; cbn [fst snd].

Section Properties.

Context `{Collab : Collaborators}.

(** *** Comprehensions *)

Lemma comprehension_filter {A} cond elt (c : string -> bool)
    (f : string -> list A) names :
  (forall n, In n names -> cond n = Return (c n)) ->
  (forall n, In n names -> c n = true ->
     exists x, elt n = Return x /\ f n = [x]) ->
  comprehension cond elt names = Return (flat_map f (filter c names)).
Proof.
  induction names as [|n ns IH]; intros Hc He; [reflexivity|].
  cbn [comprehension filter].
  rewrite (Hc n (or_introl eq_refl)); cbn [obind].
  rewrite IH.
  2: intros m Hm; apply Hc; right; exact Hm.
  2: intros m Hm; apply He; right; exact Hm.
  destruct (c n) eqn:E.
  - destruct (He n (or_introl eq_refl) E) as [x [-> Hf]].
    cbn [obind flat_map]. rewrite Hf. reflexivity.
  - reflexivity.
Qed.

Lemma flat_map_singleton {A B} (g : A -> B) (l : list A) :
  flat_map (fun x => [g x]) l = map g l.
Proof. induction l; cbn; congruence. Qed.

Lemma heading_getitem_iter h n :
  In n (heading_iter h) ->
  exists a, heading_getitem h n = Return a /\ is_blob a = column_is_blob h n.
Proof.
  unfold heading_iter, heading_getitem, column_is_blob. intros Hin.
  destruct (find (fun a => String.eqb n (attr_name a)) h) as [a|] eqn:E.
  - exists a. split; reflexivity.
  - exfalso. apply in_map_iff in Hin. destruct Hin as [a [Ha Hin]].
    apply (find_none _ _ E) in Hin. rewrite Ha, String.eqb_refl in Hin.
    discriminate.
Qed.

Lemma getitem_contains (fields : list (string * Value)) n :
  contains fields n = true ->
  exists v, getitem fields n = Return v /\ field_value fields n = Some v.
Proof.
  unfold contains, getitem, field_value. intros Hc.
  destruct (find (fun kv => String.eqb n (fst kv)) fields) as [kv|] eqn:E.
  - exists (snd kv). split; reflexivity.
  - exfalso. apply existsb_exists in Hc. destruct Hc as [kv [Hin Hk]].
    apply (find_none _ _ E) in Hin. congruence.
Qed.

Lemma check_fields_valid h names :
  forallb (heading_contains h) names = true ->
  check_fields h names = Return tt.
Proof.
  induction names as [|n ns IH]; cbn; [reflexivity|].
  intros Hv. apply andb_prop in Hv. destruct Hv as [-> Hv]. cbn. auto.
Qed.

(** The first field name that is not in the heading, in the order of the
    record. *)
Lemma check_fields_unknown h names :
  forallb (heading_contains h) names = false ->
  exists known name rest,
    names = known ++ name :: rest
    /\ forallb (heading_contains h) known = true
    /\ heading_contains h name = false
    /\ check_fields h names
       = Raise (KeyError (name +++ " is not in the attribute list")).
Proof.
  induction names as [|n ns IH]; cbn; [discriminate|].
  destruct (heading_contains h n) eqn:E; cbn.
  - intros Hv. destruct (IH Hv) as [known [name [rest [-> [Hk [Hn Hc]]]]]].
    exists (n :: known), name, rest. cbn. rewrite E. auto.
  - intros _. exists [], n, ns. auto.
Qed.

Lemma value_list_closed h fields :
  value_list h fields
  = Return (PyStr.join ","
              (map (cell_text h fields) (columns_present h fields))).
Proof.
  unfold value_list, columns_present.
  rewrite (comprehension_filter _ _ (contains fields)
             (fun n => [cell_text h fields n])).
  - cbn [obind]. rewrite flat_map_singleton. reflexivity.
  - reflexivity.
  - intros n Hin Hc. exists (cell_text h fields n). split; [|reflexivity].
    unfold value_cell, cell_text.
    destruct (heading_getitem_iter h n Hin) as [a [-> <-]].
    destruct (getitem_contains fields n Hc) as [v [-> ->]].
    cbn. destruct (is_blob a); reflexivity.
Qed.

Lemma args_tuple_closed h fields :
  args_tuple h fields = Return (flat_map (packed fields) (blob_columns h fields)).
Proof.
  unfold args_tuple, blob_columns, columns_present.
  rewrite (comprehension_filter _ _
             (fun n => contains fields n && column_is_blob h n)%bool
             (packed fields)).
  - f_equal. f_equal.
    induction (heading_iter h) as [|n ns IH]; [reflexivity|].
    cbn [filter]. destruct (contains fields n); cbn [andb filter].
    + rewrite IH. reflexivity.
    + exact IH.
  - intros n Hin. unfold is_blob_field.
    destruct (contains fields n); [|reflexivity].
    destruct (heading_getitem_iter h n Hin) as [a [-> <-]]. reflexivity.
  - intros n Hin Hc. apply andb_prop in Hc. destruct Hc as [Hc _].
    destruct (getitem_contains fields n Hc) as [v [Hg Hv]].
    exists (pack v). rewrite Hg. unfold packed. rewrite Hv. auto.
Qed.

Lemma attribute_list_closed h fields :
  attribute_list h fields
  = Return ("`" +++ PyStr.join "`,`" (columns_present h fields) +++ "`").
Proof.
  unfold attribute_list, columns_present.
  rewrite (comprehension_filter _ _ (contains fields) (fun n => [n])).
  - cbn [obind]. rewrite flat_map_singleton, map_id. reflexivity.
  - reflexivity.
  - intros n _ _. exists n. auto.
Qed.

Lemma record_parts_valid h fields :
  valid_fields h fields = true ->
  record_parts h fields
  = Return (PyStr.join "," (map (cell_text h fields) (columns_present h fields)),
            flat_map (packed fields) (blob_columns h fields),
            "`" +++ PyStr.join "`,`" (columns_present h fields) +++ "`").
Proof.
  intros Hv. unfold record_parts.
  rewrite (check_fields_valid _ _ Hv), value_list_closed, args_tuple_closed,
    attribute_list_closed.
  reflexivity.
Qed.

(** *** The connection and the store *)

Lemma connection_query_returns q w :
  connection_query q w
  = (Return (snd (execute (server w) q)), after_query q w).
Proof.
  unfold after_query, connection_query.
  destruct (execute (server w) q). reflexivity.
Qed.

Lemma after_query_frame q w :
  queries (after_query q w) = queries w ++ [q]
  /\ server (after_query q w) = fst (execute (server w) q)
  /\ erd (after_query q w) = erd w
  /\ heap (after_query q w) = heap w
  /\ safemode (after_query q w) = safemode w
  /\ answers (after_query q w) = answers w
  /\ console (after_query q w) = console w.
Proof.
  unfold after_query, connection_query.
  destruct (execute (server w) q). cbn. auto 10.
Qed.

Lemma queries_after_queries qs w :
  queries (after_queries qs w) = queries w ++ qs.
Proof.
  unfold after_queries. revert w.
  induction qs as [|q qs IH]; intros w; cbn [fold_left].
  - symmetry. apply app_nil_r.
  - rewrite IH. destruct (after_query_frame q w) as [-> _].
    rewrite <- app_assoc. reflexivity.
Qed.

Lemma heap_after_queries qs w : heap (after_queries qs w) = heap w.
Proof.
  unfold after_queries. revert w.
  induction qs as [|q qs IH]; intros w; cbn [fold_left]; [reflexivity|].
  rewrite IH. apply after_query_frame.
Qed.

Lemma nth_assign {A} (l : list A) i x d :
  (i < List.length l)%nat -> nth i (assign i x l) d = x.
Proof.
  revert i. induction l as [|y l IH]; intros [|i] Hi; cbn in *; try lia.
  - reflexivity.
  - apply IH. lia.
Qed.

Lemma heading_bool_false h : heading_bool h = false -> h = [].
Proof. destruct h; [reflexivity | discriminate]. Qed.

(** *** The heading accessor *)

Lemma heading_hit r w :
  heading_bool (cached_heading r w) = true ->
  heading r w = (Return (cached_heading r w), w).
Proof.
  intros Hb. unfold heading, read_heading. run.
  fold (cached_heading r w). rewrite Hb. reflexivity.
Qed.

Lemma heading_absent r w :
  heading_bool (cached_heading r w) = false ->
  table_exists r w = false ->
  heading r w = (Return [], after_query (existence_query r) w).
Proof.
  intros Hb Hd. unfold heading, read_heading, is_declared. run.
  fold (cached_heading r w). rewrite Hb. cbn [negb].
  fold (existence_query r). rewrite connection_query_returns.
  unfold table_exists in Hd. rewrite Hd.
  destruct (after_query_frame (existence_query r) w) as (_ & _ & _ & -> & _).
  fold (cached_heading r w). rewrite (heading_bool_false _ Hb). reflexivity.
Qed.

Lemma heading_load r w :
  heading_bool (cached_heading r w) = false ->
  table_exists r w = true ->
  let w1 := after_query (existence_query r) w in
  let w2 := after_query (metadata_query r) w1 in
  let cols := columns (snd (execute (server w1) (metadata_query r))) in
  let w3 := snd (write_heading (_heading r) cols w2) in
  heading r w = (Return (cached_heading r w3), w3).
Proof.
  intros Hb Hd. unfold heading, read_heading, is_declared, init_from_database.
  run. fold (cached_heading r w). rewrite Hb. cbn [negb].
  fold (existence_query r). rewrite connection_query_returns.
  unfold table_exists in Hd. rewrite Hd.
  fold (metadata_query r). rewrite connection_query_returns.
  reflexivity.
Qed.

(** The accessor always returns, what it returns is the Heading object as
    it stands afterwards, and it has issued [resolution_queries]. *)
Lemma heading_returns r w :
  exists h w1,
    heading r w = (Return h, w1)
    /\ h = cached_heading r w1
    /\ queries w1 = queries w ++ resolution_queries r w
    /\ (heading_bool (cached_heading r w) = true -> w1 = w).
Proof.
  unfold resolution_queries.
  destruct (heading_bool (cached_heading r w)) eqn:Hb.
  - exists (cached_heading r w), w. rewrite (heading_hit r w Hb).
    rewrite app_nil_r. auto.
  - destruct (table_exists r w) eqn:Hd.
    + pose proof (heading_load r w Hb Hd) as Hl. cbv zeta in Hl.
      eexists _, _. split; [exact Hl|]. split; [reflexivity|].
      split; [|discriminate].
      unfold write_heading. cbn [snd queries].
      destruct (after_query_frame (metadata_query r)
                  (after_query (existence_query r) w)) as [-> _].
      destruct (after_query_frame (existence_query r) w) as [-> _].
      rewrite <- app_assoc. reflexivity.
    + exists [], (after_query (existence_query r) w).
      rewrite (heading_absent r w Hb Hd).
      split; [reflexivity|]. split; [|split; [|discriminate]].
      * unfold cached_heading.
        destruct (after_query_frame (existence_query r) w) as (_ & _ & _ & -> & _).
        symmetry. apply heading_bool_false. exact Hb.
      * apply after_query_frame.
Qed.

Lemma heading_inv r w h w1 :
  heading r w = (Return h, w1) ->
  h = cached_heading r w1
  /\ queries w1 = queries w ++ resolution_queries r w
  /\ (heading_bool (cached_heading r w) = true -> w1 = w).
Proof.
  intros Hh. destruct (heading_returns r w) as (h' & w' & Hh' & H1 & H2 & H3).
  rewrite Hh in Hh'. injection Hh' as -> ->. auto.
Qed.

(** C7: the heading accessor is lazy and caching.  With the Heading object
    of the relation in the store: when it is loaded the accessor returns it
    and leaves the world as it is; when it is not loaded and the table
    exists, the accessor issues the existence check and exactly one
    metadata query, and the columns that query yields are returned and
    kept in the Heading object; when the table does not exist it returns
    the empty heading, without raising, after the existence check alone;
    and once it has returned a non-empty heading, calling it again gives
    the same heading and touches nothing. *)
Theorem heading_lazy_cached r w :
  (_heading r < List.length (heap w))%nat ->
  exists h w',
    heading r w = (Return h, w')
    /\ (heading_bool (cached_heading r w) = true ->
          h = cached_heading r w /\ w' = w)
    /\ (heading_bool (cached_heading r w) = false ->
          table_exists r w = true ->
          queries w' = queries w ++ [existence_query r; metadata_query r]
          /\ h = columns (snd (execute
                                 (server (after_query (existence_query r) w))
                                 (metadata_query r)))
          /\ cached_heading r w' = h)
    /\ (heading_bool (cached_heading r w) = false ->
          table_exists r w = false ->
          h = [] /\ queries w' = queries w ++ [existence_query r]
          /\ heap w' = heap w)
    /\ (heading_bool h = true -> heading r w' = (Return h, w')).
Proof.
  intros Href.
  destruct (heading_returns r w) as (h & w' & Hh & Hc & Hq & Hsame).
  exists h, w'. split; [exact Hh|].
  split; [|split; [|split]].
  - intros Hb. rewrite (heading_hit r w Hb) in Hh.
    injection Hh as <- <-. auto.
  - intros Hb Hd. pose proof (heading_load r w Hb Hd) as Hl. cbv zeta in Hl.
    rewrite Hl in Hh. injection Hh as <- <-.
    unfold resolution_queries in Hq. rewrite Hb, Hd in Hq.
    split; [exact Hq|]. split; [|reflexivity].
    unfold cached_heading, write_heading. cbn [snd heap].
    apply nth_assign.
    destruct (after_query_frame (metadata_query r)
                (after_query (existence_query r) w)) as (_ & _ & _ & -> & _).
    destruct (after_query_frame (existence_query r) w) as (_ & _ & _ & -> & _).
    exact Href.
  - intros Hb Hd. rewrite (heading_absent r w Hb Hd) in Hh.
    injection Hh as <- <-.
    split; [reflexivity|]. split; apply after_query_frame.
  - intros Hb. rewrite Hc in Hb |- *. apply heading_hit. exact Hb.
Qed.

(** *** insert *)

Lemma insert_valid r tup fields ignore_errors replace w h w1 :
  tuple_fields tup = Some fields ->
  heading r w = (Return h, w1) ->
  valid_fields h fields = true ->
  insert r tup ignore_errors replace w
  = (Return tt, after_query (statement r h fields ignore_errors replace) w1).
Proof.
  intros Ht Hh Hv. unfold insert. run. rewrite Hh.
  assert (Hp : match tup with
               | Void fields => record_parts h fields
               | Mapping items => record_parts h items
               | Other type_repr =>
                   Raise (DataJointError
                            ("Datatype " +++ type_repr +++ " cannot be inserted"))
               end = record_parts h fields)
    by (destruct tup; cbn in Ht; congruence).
  rewrite Hp, (record_parts_valid h fields Hv).
  rewrite connection_query_returns. reflexivity.
Qed.

Lemma insert_invalid r tup fields ignore_errors replace w h w1 e :
  tuple_fields tup = Some fields ->
  heading r w = (Return h, w1) ->
  check_fields h (map fst fields) = Raise e ->
  insert r tup ignore_errors replace w = (Raise e, w1).
Proof.
  intros Ht Hh Hc. unfold insert. run. rewrite Hh.
  destruct tup; cbn in Ht; try discriminate; injection Ht as ->;
    unfold record_parts; rewrite Hc; reflexivity.
Qed.

(** C2, amended: a record (mapping or structured row) with a field name
    that is not in the Heading makes insert fail with the KeyError of the
    first such name, and no INSERT or REPLACE statement is built or
    executed: the world is left as the heading accessor left it, so the
    only queries issued are those of the heading resolution, and none at
    all when the heading is already loaded. *)
Theorem insert_unknown_field r tup fields ignore_errors replace w h w1 :
  tuple_fields tup = Some fields ->
  heading r w = (Return h, w1) ->
  valid_fields h fields = false ->
  exists known name rest,
    map fst fields = known ++ name :: rest
    /\ forallb (heading_contains h) known = true
    /\ heading_contains h name = false
    /\ insert r tup ignore_errors replace w
       = (Raise (KeyError (name +++ " is not in the attribute list")), w1)
    /\ queries w1 = queries w ++ resolution_queries r w
    /\ (heading_bool (cached_heading r w) = true -> w1 = w).
Proof.
  intros Ht Hh Hv.
  destruct (check_fields_unknown h _ Hv)
    as (known & name & rest & Hsplit & Hk & Hn & Hc).
  exists known, name, rest.
  destruct (heading_inv r w h w1 Hh) as (_ & Hq & Hsame).
  repeat split; try assumption.
  apply (insert_invalid r tup fields _ _ w h w1); assumption.
Qed.

(** The order of the fields of a record is immaterial. *)
Lemma find_key_permutation {V} (l l' : list (string * V)) n :
  NoDup (map fst l) -> Permutation l l' ->
  find (fun kv => String.eqb n (fst kv)) l
  = find (fun kv => String.eqb n (fst kv)) l'.
Proof.
  intros Hnd Hp. induction Hp as [|x l l' Hp IH|x y l|l l' l'' Hp1 IH1 Hp2 IH2].
  - reflexivity.
  - cbn. destruct (String.eqb n (fst x)); [reflexivity|].
    apply IH. cbn in Hnd. inversion Hnd; assumption.
  - cbn. destruct (String.eqb n (fst x)) eqn:Ex;
      destruct (String.eqb n (fst y)) eqn:Ey; try reflexivity.
    exfalso. apply String.eqb_eq in Ex, Ey. cbn in Hnd.
    inversion Hnd as [|? ? Hnot _]. apply Hnot. left. congruence.
  - rewrite IH1 by assumption. apply IH2.
    apply (Permutation_NoDup (Permutation_map fst Hp1) Hnd).
Qed.

Lemma existsb_find {A} (f : A -> bool) l :
  existsb f l = match find f l with Some _ => true | None => false end.
Proof. induction l as [|x l IH]; cbn; [|destruct (f x)]; auto. Qed.

Lemma statement_permutation r h fields fields' ignore_errors replace :
  NoDup (map fst fields) -> Permutation fields fields' ->
  statement r h fields' ignore_errors replace
  = statement r h fields ignore_errors replace.
Proof.
  intros Hnd Hp.
  assert (Hfind : forall n, find (fun kv => String.eqb n (fst kv)) fields'
                            = find (fun kv => String.eqb n (fst kv)) fields)
    by (intros n; symmetry; apply find_key_permutation; assumption).
  assert (Hval : forall n, field_value fields' n = field_value fields n)
    by (intros n; unfold field_value; rewrite Hfind; reflexivity).
  assert (Hcols : columns_present h fields' = columns_present h fields).
  { unfold columns_present. apply filter_ext. intros n. unfold contains.
    rewrite !existsb_find, Hfind. reflexivity. }
  unfold statement, blob_columns. rewrite Hcols. f_equal.
  - f_equal. f_equal. apply map_ext. intros n. unfold cell_text.
    rewrite Hval. reflexivity.
  - apply flat_map_ext. intros n. unfold packed. rewrite Hval. reflexivity.
Qed.

Lemma valid_fields_permutation h fields fields' :
  Permutation fields fields' ->
  valid_fields h fields = true -> valid_fields h fields' = true.
Proof.
  unfold valid_fields. intros Hp Hv. rewrite forallb_forall in *.
  intros n Hin. apply Hv.
  apply (Permutation_in n (Permutation_sym (Permutation_map fst Hp)) Hin).
Qed.

(** C4: for a valid record, the statement lists the columns, and the
    cells of the VALUES clause alike, in the iteration order of the Heading
    restricted to the fields of the record; a record with the same fields
    in another order gives the very same call. *)
Theorem insert_column_order r tup fields ignore_errors replace w h w1 :
  tuple_fields tup = Some fields ->
  heading r w = (Return h, w1) ->
  valid_fields h fields = true ->
  let cols := filter (contains fields) (heading_iter h) in
  insert r tup ignore_errors replace w
  = (Return tt, after_query (statement r h fields ignore_errors replace) w1)
  /\ sql (statement r h fields ignore_errors replace)
     = insert_verb ignore_errors replace
         +++ " INTO " +++ from_clause r
         +++ " (" +++ ("`" +++ PyStr.join "`,`" cols +++ "`")
         +++ ") VALUES ("
         +++ PyStr.join "," (map (cell_text h fields) cols) +++ ")"
  /\ forall fields',
       NoDup (map fst fields) -> Permutation fields fields' ->
       insert r (with_fields tup fields') ignore_errors replace w
       = insert r tup ignore_errors replace w.
Proof.
  intros Ht Hh Hv cols.
  split; [apply insert_valid; assumption|].
  split; [reflexivity|].
  intros fields' Hnd Hp.
  rewrite (insert_valid r tup fields _ _ w h w1 Ht Hh Hv).
  rewrite (insert_valid r (with_fields tup fields') fields' _ _ w h w1).
  - rewrite (statement_permutation r h fields fields') by assumption.
    reflexivity.
  - destruct tup; cbn in Ht |- *; congruence.
  - exact Hh.
  - apply (valid_fields_permutation h fields); assumption.
Qed.




(** C6, amended: for a valid record, insert executes exactly one INSERT or
    REPLACE statement, the last query of the call; before it come only the
    queries of the heading resolution, and none when the heading is already
    loaded.  Its verb is REPLACE when replace is set, INSERT IGNORE when
    ignore_errors is set and replace is not, INSERT otherwise. *)
Theorem insert_one_statement r tup fields ignore_errors replace w h w1 :
  tuple_fields tup = Some fields ->
  heading r w = (Return h, w1) ->
  valid_fields h fields = true ->
  exists w' tail,
    insert r tup ignore_errors replace w = (Return tt, w')
    /\ queries w'
       = queries w ++ resolution_queries r w
           ++ [statement r h fields ignore_errors replace]
    /\ (heading_bool (cached_heading r w) = true ->
          queries w' = queries w ++ [statement r h fields ignore_errors replace])
    /\ sql (statement r h fields ignore_errors replace)
       = insert_verb ignore_errors replace +++ " INTO " +++ tail
    /\ (replace = true -> insert_verb ignore_errors replace = "REPLACE")
    /\ (replace = false -> ignore_errors = true ->
          insert_verb ignore_errors replace = "INSERT IGNORE")
    /\ (replace = false -> ignore_errors = false ->
          insert_verb ignore_errors replace = "INSERT").
Proof.
  intros Ht Hh Hv.
  destruct (heading_inv r w h w1 Hh) as (_ & Hq & Hsame).
  eexists _, _. split; [apply insert_valid; eassumption|].
  split; [|split; [|split; [reflexivity|]]].
  - destruct (after_query_frame (statement r h fields ignore_errors replace) w1)
      as [-> _].
    rewrite Hq, <- app_assoc. reflexivity.
  - intros Hb. rewrite (Hsame Hb). apply after_query_frame.
  - repeat split; intros; subst; reflexivity.
Qed.

(** C10: with replace and ignore_errors both set, a valid record is sent
    as a REPLACE statement, and the call is the one made with replace
    alone: ignore_errors changes nothing. *)
Theorem replace_takes_precedence r tup fields w h w1 :
  tuple_fields tup = Some fields ->
  heading r w = (Return h, w1) ->
  valid_fields h fields = true ->
  exists tail,
    insert r tup true true w
    = (Return tt, after_query (statement r h fields true true) w1)
    /\ sql (statement r h fields true true) = "REPLACE INTO " +++ tail
    /\ statement r h fields true true = statement r h fields false true
    /\ insert r tup true true w = insert r tup false true w.
Proof.
  intros Ht Hh Hv. eexists.
  split; [apply insert_valid; assumption|].
  split; [reflexivity|]. split; reflexivity.
Qed.

(** *** iter_insert and batch_insert *)

Lemma iter_insert_successive r rows kwargs w :
  iter_insert r rows kwargs w = successive_inserts r kwargs rows w.
Proof.
  unfold iter_insert. revert w.
  induction rows as [|row rest IH]; intros w; [reflexivity|].
  cbn [for_each successive_inserts]. unfold bind.
  destruct (insert_kw r row kwargs w) as [[[]|e] w']; [apply IH | reflexivity].
Qed.

Lemma insert_kw_valid r row kwargs w h w1 :
  heading r w = (Return h, w1) ->
  valid_tuple h row = true ->
  insert_kw r row kwargs w
  = (Return tt, after_query (statement_kw r h kwargs row) w1).
Proof.
  intros Hh Hv. unfold valid_tuple in Hv. unfold insert_kw, statement_kw.
  destruct (tuple_fields row) as [fields|] eqn:Ht; [|discriminate].
  apply insert_valid; assumption.
Qed.

Lemma successive_inserts_loaded r kwargs h rows :
  heading_bool h = true ->
  forallb (valid_tuple h) rows = true ->
  forall w, cached_heading r w = h ->
    successive_inserts r kwargs rows w
    = (Return tt, after_queries (map (statement_kw r h kwargs) rows) w).
Proof.
  intros Hb. induction rows as [|row rest IH]; intros Hv w Hc; [reflexivity|].
  cbn in Hv. apply andb_prop in Hv. destruct Hv as [Hrow Hrest].
  cbn [successive_inserts map].
  assert (Hh : heading r w = (Return h, w))
    by (rewrite <- Hc; apply heading_hit; rewrite Hc; exact Hb).
  rewrite (insert_kw_valid r row kwargs w h w Hh Hrow).
  rewrite (IH Hrest); [reflexivity|].
  unfold cached_heading.
  destruct (after_query_frame (statement_kw r h kwargs row) w)
    as (_ & _ & _ & -> & _).
  exact Hc.
Qed.

Lemma call_of_heading r kwargs row w h w1 :
  heading r w = (Return h, w1) ->
  call_heading r w = h
  /\ call_statement r kwargs row w = statement_kw r h kwargs row
  /\ after_call r kwargs row w = after_query (statement_kw r h kwargs row) w1.
Proof.
  intros Hh. destruct (heading_inv r w h w1 Hh) as (Hc & _).
  unfold after_call, call_statement, call_heading. rewrite Hh. cbn [snd].
  rewrite <- Hc. auto.
Qed.

Lemma successive_inserts_valid r kwargs rows :
  forall w,
    batch_valid r kwargs rows w = true ->
    exists w',
      successive_inserts r kwargs rows w = (Return tt, w')
      /\ queries w'
         = queries w
             ++ flat_map (fun call => fst call ++ [snd call])
                  (batch_calls r kwargs rows w).
Proof.
  induction rows as [|row rest IH]; intros w Hv.
  - exists w. cbn. rewrite app_nil_r. auto.
  - cbn [batch_valid] in Hv. apply andb_prop in Hv. destruct Hv as [Hrow Hrest].
    destruct (heading_returns r w) as (h & w1 & Hh & _ & Hq & _).
    destruct (call_of_heading r kwargs row w h w1 Hh) as (Hch & Hcs & Hac).
    rewrite Hch in Hrow.
    destruct (IH _ Hrest) as (w' & Hrun & Hq').
    exists w'. cbn [successive_inserts batch_calls flat_map fst snd].
    rewrite (insert_kw_valid r row kwargs w h w1 Hh Hrow), <- Hac.
    split; [exact Hrun|].
    rewrite Hq', Hac, Hcs.
    destruct (after_query_frame (statement_kw r h kwargs row) w1) as [-> _].
    rewrite Hq, <- !app_assoc. reflexivity.
Qed.

Lemma batch_calls_length r kwargs rows :
  forall w, List.length (batch_calls r kwargs rows w) = List.length rows.
Proof.
  induction rows as [|row rest IH]; intros w; cbn; [|rewrite IH]; reflexivity.
Qed.

Lemma batch_loaded r kwargs h rows :
  heading_bool h = true ->
  forall w, cached_heading r w = h ->
    batch_calls r kwargs rows w
    = map (fun row => ([], statement_kw r h kwargs row)) rows
    /\ batch_valid r kwargs rows w = forallb (valid_tuple h) rows.
Proof.
  intros Hb. induction rows as [|row rest IH]; intros w Hc; [split; reflexivity|].
  assert (Hh : heading r w = (Return h, w))
    by (rewrite <- Hc; apply heading_hit; rewrite Hc; exact Hb).
  destruct (call_of_heading r kwargs row w h w Hh) as (Hch & Hcs & Hac).
  assert (Hnext : cached_heading r (after_call r kwargs row w) = h).
  { rewrite Hac. unfold cached_heading.
    destruct (after_query_frame (statement_kw r h kwargs row) w)
      as (_ & _ & _ & -> & _).
    exact Hc. }
  destruct (IH _ Hnext) as (Hcalls & Hvalid).
  cbn [batch_calls batch_valid map forallb].
  rewrite Hcalls, Hvalid, Hch, Hcs. unfold resolution_queries.
  rewrite Hc, Hb. split; reflexivity.
Qed.

(** C9, amended: iter_insert and batch_insert over a sequence of records
    are N successive calls of insert with the same keyword arguments, in
    sequence order, whatever the records.  For N records, each valid for
    the heading its call resolves, they execute exactly N INSERT or REPLACE
    statements, the statement of each record alone, in sequence order; each
    statement is preceded only by the queries of the heading resolution of
    its own call.  Those are none once the heading is loaded: when the first
    call loads a non-empty heading they are issued by the first call only,
    and with the heading loaded beforehand the N statements are all that is
    sent. *)
Theorem batch_insert_successive r rows kwargs w :
  iter_insert r rows kwargs w = successive_inserts r kwargs rows w
  /\ batch_insert r rows kwargs w = successive_inserts r kwargs rows w
  /\ (forall h w1,
       heading r w = (Return h, w1) ->
       heading_bool h = true ->
       rows <> [] ->
       forallb (valid_tuple h) rows = true ->
       exists w',
         iter_insert r rows kwargs w = (Return tt, w')
         /\ w' = after_queries (map (statement_kw r h kwargs) rows) w1
         /\ queries w'
            = queries w ++ resolution_queries r w
                ++ map (statement_kw r h kwargs) rows
         /\ List.length (map (statement_kw r h kwargs) rows) = List.length rows
         /\ (heading_bool (cached_heading r w) = true ->
               queries w' = queries w ++ map (statement_kw r h kwargs) rows))
  /\ (batch_valid r kwargs rows w = true ->
        exists w',
          iter_insert r rows kwargs w = (Return tt, w')
          /\ batch_insert r rows kwargs w = (Return tt, w')
          /\ List.length (batch_calls r kwargs rows w) = List.length rows
          /\ queries w'
             = queries w
                 ++ flat_map (fun call => fst call ++ [snd call])
                      (batch_calls r kwargs rows w))
  /\ (forall h,
        cached_heading r w = h -> heading_bool h = true ->
        batch_calls r kwargs rows w
        = map (fun row => ([], statement_kw r h kwargs row)) rows
        /\ batch_valid r kwargs rows w = forallb (valid_tuple h) rows).
Proof.
  split; [apply iter_insert_successive|].
  split; [apply iter_insert_successive|].
  split; [|split].
  - intros h w1 Hh Hb Hne Hv.
    destruct rows as [|row rest]; [congruence|].
    cbn in Hv. apply andb_prop in Hv. destruct Hv as [Hrow Hrest].
    destruct (heading_inv r w h w1 Hh) as (Hc & Hq & Hsame).
    exists (after_queries (map (statement_kw r h kwargs) (row :: rest)) w1).
    split; [|split; [reflexivity|split; [|split]]].
    + rewrite iter_insert_successive. cbn [successive_inserts map].
      rewrite (insert_kw_valid r row kwargs w h w1 Hh Hrow).
      rewrite (successive_inserts_loaded r kwargs h rest Hb Hrest); [reflexivity|].
      unfold cached_heading.
      destruct (after_query_frame (statement_kw r h kwargs row) w1)
        as (_ & _ & _ & -> & _).
      symmetry. exact Hc.
    + rewrite queries_after_queries, Hq, <- app_assoc. reflexivity.
    + apply length_map.
    + intros Hl. rewrite (Hsame Hl). apply queries_after_queries.
  - intros Hv. destruct (successive_inserts_valid r kwargs rows w Hv)
      as (w' & Hrun & Hq).
    exists w'. unfold batch_insert. rewrite iter_insert_successive.
    split; [exact Hrun|]. split; [exact Hrun|].
    split; [apply batch_calls_length | exact Hq].
  - intros h Hc Hb. apply batch_loaded; assumption.
Qed.

(** *** delete *)

Lemma ask_shown message default typed :
  forall shown choice rest shown',
    ask message default typed shown = (choice, rest, shown') ->
    exists asked,
      shown' = shown ++ asked /\ asked <> []
      /\ Forall (eq (Prompt message default)) asked.
Proof.
  induction typed as [|line more IH]; intros shown choice rest shown' Hask;
    cbn [ask] in Hask.
  - injection Hask as _ _ <-. exists [Prompt message default].
    repeat split; [discriminate | repeat constructor].
  - destruct (String.eqb
                (if String.eqb line EmptyString then default else line) "yes"
              || String.eqb
                   (if String.eqb line EmptyString then default else line) "no")%bool.
    + injection Hask as _ _ <-. exists [Prompt message default].
      repeat split; [discriminate | repeat constructor].
    + destruct (IH _ _ _ _ Hask) as (asked & -> & _ & Hall).
      exists (Prompt message default :: asked). rewrite <- app_assoc.
      repeat split; [discriminate | constructor; [reflexivity | exact Hall]].
Qed.

Lemma user_choice_same_state message default w typed w1 :
  user_choice message default w = (Return typed, w1) ->
  same_state w w1
  /\ exists asked,
       console w1 = console w ++ asked /\ asked <> []
       /\ Forall (eq (Prompt message default)) asked.
Proof.
  unfold user_choice, same_state. intros Hu.
  destruct (ask message default (answers w) (console w))
    as [[choice rest] shown] eqn:Hask.
  injection Hu as _ <-. cbn.
  split; [auto 10|]. apply (ask_shown _ _ _ _ _ _ _ Hask).
Qed.

Lemma delete_quick_query r w :
  delete_quick r w
  = (Return tt,
     after_query
       (mkQuery ("DELETE FROM " +++ from_clause r +++ where_clause r) [] false)
       w).
Proof.
  unfold delete_quick. run. rewrite connection_query_returns. reflexivity.
Qed.

(** C8: with safe mode off, delete is delete_quick, at once and without a
    prompt; with safe mode on it asks first, and goes on to delete_quick
    when the answer is yes; on any other answer it returns with the server,
    the log of queries, the dependency graph and the headings as they
    were.  delete_quick issues the DELETE statement. *)
Theorem delete_safemode r w :
  (safemode w = false -> delete r w = delete_quick r w)
  /\ (safemode w = true ->
        forall typed w1,
          user_choice delete_prompt "no" w = (Return typed, w1) ->
          (typed = "yes" -> delete r w = delete_quick r w1)
          /\ (typed <> "yes" ->
                delete r w = (Return tt, w1)
                /\ same_state w w1 /\ queries w1 = queries w))
  /\ (exists w', delete_quick r w = (Return tt, w')
                  /\ queries w'
                     = queries w
                         ++ [mkQuery ("DELETE FROM " +++ from_clause r
                                        +++ where_clause r) [] false]).
Proof.
  split; [|split].
  - intros Hs. unfold delete, config_safemode. run. rewrite Hs. reflexivity.
  - intros Hs typed w1 Hu. unfold delete, config_safemode. run.
    rewrite Hs. cbn [negb]. rewrite Hu. split.
    + intros ->. reflexivity.
    + intros Hne. apply String.eqb_neq in Hne. rewrite Hne.
      destruct (user_choice_same_state _ _ _ _ _ Hu) as [Hsame _].
      split; [reflexivity|]. split; [exact Hsame|]. apply Hsame.
  - eexists. split; [apply delete_quick_query|]. apply after_query_frame.
Qed.

(** *** drop *)

Lemma for_each_app {A} (body : A -> M unit) xs ys w :
  for_each body (xs ++ ys) w
  = bind (for_each body xs) (fun _ => for_each body ys) w.
Proof.
  revert w. induction xs as [|x xs IH]; intros w; [reflexivity|].
  cbn [for_each app]. unfold bind in *.
  destruct (body x w) as [[[]|e] w']; [apply IH | reflexivity].
Qed.





Lemma confirm_drop_off rels w :
  safemode w = false -> confirm_drop rels w = (Return true, w).
Proof.
  intros Hs. unfold confirm_drop, config_safemode. run. rewrite Hs.
  reflexivity.
Qed.

(** *** size_on_disk *)

Lemma size_on_disk_value r w row data_length index_length :
  fetchone (snd (execute (server w) (status_query r))) = Some row ->
  getitem row "Data_length" = Return data_length ->
  getitem row "Index_length" = Return index_length ->
  size_on_disk r w
  = (Return (inject_Z (data_length + index_length) / inject_Z (1024 ^ 2))%Q,
     after_query (status_query r) w).
Proof.
  intros Hrow Hd Hi. unfold size_on_disk. run.
  fold (status_query r). rewrite connection_query_returns, Hrow.
  run. rewrite Hd, Hi. reflexivity.
Qed.

End Properties.

(** ** The claims on the lab database *)

(** C1: a table of the lab with one gibibyte of data and no index.  The
    one status query is sent, and size_on_disk returns 1024, the size in
    mebibytes: the sum of the two lengths is divided by 1024^2, not by
    1024^3, which would give 1. *)
Theorem size_on_disk_one_gibibyte_table :
  exists q w',
    size_on_disk Lab.subject Lab.fresh = (Return q, w')
    /\ queries w' = [status_query Lab.subject]
    /\ (q == 1024)%Q
    /\ ~ (q == inject_Z (2 ^ 30 + 0) / inject_Z (1024 ^ 3))%Q.
Proof.
  eexists _, _. split; [|split; [|split]].
  - apply (size_on_disk_value Lab.subject Lab.fresh
             [("Name", 0); ("Data_length", 2 ^ 30); ("Index_length", 0)]
             (2 ^ 30) 0); reflexivity.
  - reflexivity.
  - reflexivity.
  - intros H. vm_compute in H. discriminate H.
Qed.

(** The heading of subject in the fresh lab: loaded by the existence check
    and one metadata query, then served from the Heading object. *)
Lemma heading_lazy_cached_witness :
  (_heading Lab.subject < List.length (heap Lab.fresh))%nat
  /\ exists h w',
       heading Lab.subject Lab.fresh = (Return h, w')
       /\ h = Lab.subject_columns
       /\ queries w'
          = [existence_query Lab.subject; metadata_query Lab.subject]
       /\ heading Lab.subject w' = (Return h, w').
Proof.
  assert (H : (_heading Lab.subject < List.length (heap Lab.fresh))%nat)
    by (cbn; lia).
  split; [exact H|].
  destruct (heading_lazy_cached Lab.subject Lab.fresh H)
    as (h & w' & Hh & _ & Hload & _ & Hhit).
  destruct (Hload eq_refl eq_refl) as (Hq & Hcols & _).
  exists h, w'. split; [exact Hh|]. split; [exact Hcols|]. split; [exact Hq|].
  apply Hhit. rewrite Hcols. reflexivity.
Defined.

(** C2 as stated fails: on a relation whose heading is not loaded yet, a
    record with the unknown field weight is rejected, but only after the
    heading accessor has sent its two queries. *)
Lemma insert_unknown_field_counterexample :
  valid_tuple Lab.subject_columns Lab.mouse_with_weight = false
  /\ fst (insert Lab.subject Lab.mouse_with_weight false false Lab.fresh)
     = Raise (KeyError "weight is not in the attribute list")
  /\ queries (snd (insert Lab.subject Lab.mouse_with_weight false false Lab.fresh))
     = [existence_query Lab.subject; metadata_query Lab.subject]
  /\ queries (snd (insert Lab.subject Lab.mouse_with_weight false false Lab.fresh))
     <> queries Lab.fresh.
Proof.
  split; [reflexivity|]. split; [reflexivity|]. split; [reflexivity|].
  intros H. vm_compute in H. discriminate H.
Qed.

(** With the heading loaded, the record with the unknown field weight is
    rejected and the world is untouched. *)
Lemma insert_unknown_field_witness :
  tuple_fields Lab.mouse_with_weight = Some Lab.weight_fields
  /\ heading Lab.subject Lab.loaded = (Return Lab.subject_columns, Lab.loaded)
  /\ valid_fields Lab.subject_columns Lab.weight_fields = false
  /\ exists e,
       insert Lab.subject Lab.mouse_with_weight false false Lab.loaded
       = (Raise e, Lab.loaded).
Proof.
  split; [reflexivity|]. split; [reflexivity|]. split; [reflexivity|].
  destruct (insert_unknown_field Lab.subject Lab.mouse_with_weight
              Lab.weight_fields false false Lab.loaded Lab.subject_columns
              Lab.loaded eq_refl eq_refl eq_refl)
    as (known & name & rest & _ & _ & _ & Hins & _).
  eexists. exact Hins.
Defined.

(** A record given as photo, subject_id, species is sent in heading order,
    and so is the same record with its fields reversed. *)
Lemma insert_column_order_witness :
  tuple_fields Lab.mouse_with_photo = Some Lab.photo_fields
  /\ heading Lab.subject Lab.loaded = (Return Lab.subject_columns, Lab.loaded)
  /\ valid_fields Lab.subject_columns Lab.photo_fields = true
  /\ NoDup (map fst Lab.photo_fields)
  /\ Permutation Lab.photo_fields (rev Lab.photo_fields)
  /\ sql (statement Lab.subject Lab.subject_columns Lab.photo_fields false false)
     = "INSERT INTO `lab`.`subject` (`subject_id`,`species`,`photo`) VALUES (7,'mouse',%s)"
  /\ insert Lab.subject (Mapping (rev Lab.photo_fields)) false false Lab.loaded
     = insert Lab.subject Lab.mouse_with_photo false false Lab.loaded.
Proof.
  assert (Hnd : NoDup (map fst Lab.photo_fields)).
  { repeat constructor; cbn; intuition discriminate. }
  pose proof (Permutation_rev Lab.photo_fields) as Hperm.
  destruct (insert_column_order Lab.subject Lab.mouse_with_photo
              Lab.photo_fields false false Lab.loaded Lab.subject_columns
              Lab.loaded eq_refl eq_refl eq_refl)
    as (_ & Hsql & Hany).
  split; [reflexivity|]. split; [reflexivity|]. split; [reflexivity|].
  split; [exact Hnd|]. split; [exact Hperm|].
  split; [rewrite Hsql; reflexivity|].
  exact (Hany (rev Lab.photo_fields) Hnd Hperm).
Defined.


(** C6 as stated fails: the first insert into a relation whose heading is
    not loaded yet sends three queries, not one. *)
Lemma insert_one_statement_counterexample :
  valid_tuple Lab.subject_columns Lab.mouse = true
  /\ fst (insert Lab.subject Lab.mouse false false Lab.fresh) = Return tt
  /\ queries (snd (insert Lab.subject Lab.mouse false false Lab.fresh))
     = [existence_query Lab.subject; metadata_query Lab.subject;
        statement Lab.subject Lab.subject_columns Lab.mouse_fields false false]
  /\ List.length (queries (snd (insert Lab.subject Lab.mouse false false Lab.fresh)))
     <> S (List.length (queries Lab.fresh)).
Proof.
  split; [reflexivity|]. split; [reflexivity|]. split; [reflexivity|].
  intros H. vm_compute in H. discriminate H.
Qed.

(** The first insert into subject with ignore_errors set: the two
    queries of the heading resolution, then the one INSERT IGNORE. *)
Lemma insert_one_statement_witness :
  tuple_fields Lab.mouse = Some Lab.mouse_fields
  /\ heading Lab.subject Lab.fresh
     = (Return Lab.subject_columns, snd (heading Lab.subject Lab.fresh))
  /\ valid_fields Lab.subject_columns Lab.mouse_fields = true
  /\ exists w',
       insert Lab.subject Lab.mouse true false Lab.fresh = (Return tt, w')
       /\ queries w'
          = [existence_query Lab.subject; metadata_query Lab.subject;
             statement Lab.subject Lab.subject_columns Lab.mouse_fields true false]
       /\ insert_verb true false = "INSERT IGNORE".
Proof.
  split; [reflexivity|]. split; [reflexivity|]. split; [reflexivity|].
  destruct (insert_one_statement Lab.subject Lab.mouse Lab.mouse_fields
              true false Lab.fresh Lab.subject_columns
              (snd (heading Lab.subject Lab.fresh)) eq_refl eq_refl eq_refl)
    as (w' & tail & Hins & Hq & _ & _ & _ & Hverb & _).
  exists w'. split; [exact Hins|]. split; [exact Hq|].
  exact (Hverb eq_refl eq_refl).
Defined.

(** Both flags set on the lab: a REPLACE statement, the same call as with
    replace alone. *)
Lemma replace_takes_precedence_witness :
  tuple_fields Lab.mouse = Some Lab.mouse_fields
  /\ heading Lab.subject Lab.loaded = (Return Lab.subject_columns, Lab.loaded)
  /\ valid_fields Lab.subject_columns Lab.mouse_fields = true
  /\ sql (statement Lab.subject Lab.subject_columns Lab.mouse_fields true true)
     = "REPLACE INTO `lab`.`subject` (`subject_id`,`species`) VALUES (7,'mouse')"
  /\ insert Lab.subject Lab.mouse true true Lab.loaded
     = insert Lab.subject Lab.mouse false true Lab.loaded.
Proof.
  split; [reflexivity|]. split; [reflexivity|]. split; [reflexivity|].
  destruct (replace_takes_precedence Lab.subject Lab.mouse Lab.mouse_fields
              Lab.loaded Lab.subject_columns Lab.loaded eq_refl eq_refl eq_refl)
    as (tail & _ & _ & _ & Hsame).
  split; [reflexivity | exact Hsame].
Defined.

(** C9 as stated fails: two records handed to iter_insert on a relation
    whose heading is not loaded yet make four queries, not two. *)
Lemma batch_insert_successive_counterexample :
  forallb (valid_tuple Lab.subject_columns) [Lab.mouse; Lab.mouse_with_photo] = true
  /\ fst (iter_insert Lab.subject [Lab.mouse; Lab.mouse_with_photo]
            Lab.no_kwargs Lab.fresh) = Return tt
  /\ queries (snd (iter_insert Lab.subject [Lab.mouse; Lab.mouse_with_photo]
                     Lab.no_kwargs Lab.fresh))
     = [existence_query Lab.subject; metadata_query Lab.subject;
        statement Lab.subject Lab.subject_columns Lab.mouse_fields false false;
        statement Lab.subject Lab.subject_columns Lab.photo_fields false false]
  /\ List.length
       (queries (snd (iter_insert Lab.subject [Lab.mouse; Lab.mouse_with_photo]
                        Lab.no_kwargs Lab.fresh)))
     <> (List.length (queries Lab.fresh)
         + List.length [Lab.mouse; Lab.mouse_with_photo])%nat.
Proof.
  split; [reflexivity|]. split; [reflexivity|]. split; [reflexivity|].
  intros H. vm_compute in H. discriminate H.
Qed.

(** Two records through batch_insert with replace set: after the heading
    resolution, the REPLACE statement of the first, then that of the
    second.  Two records without fields where no table exists: each call
    checks for the table again before its statement. *)
Lemma batch_insert_successive_witness :
  heading Lab.subject Lab.fresh
  = (Return Lab.subject_columns, snd (heading Lab.subject Lab.fresh))
  /\ heading_bool Lab.subject_columns = true
  /\ [Lab.mouse; Lab.mouse_with_photo] <> []
  /\ forallb (valid_tuple Lab.subject_columns) [Lab.mouse; Lab.mouse_with_photo]
     = true
  /\ batch_valid Lab.subject Lab.no_kwargs [Mapping []; Mapping []] Lab.absent
     = true
  /\ (exists w',
        batch_insert Lab.subject [Lab.mouse; Lab.mouse_with_photo]
          (mkKwargs None (Some true)) Lab.fresh = (Return tt, w')
        /\ queries w'
           = [existence_query Lab.subject; metadata_query Lab.subject;
              statement Lab.subject Lab.subject_columns Lab.mouse_fields false true;
              statement Lab.subject Lab.subject_columns Lab.photo_fields false true])
  /\ (exists w',
        batch_insert Lab.subject [Mapping []; Mapping []] Lab.no_kwargs Lab.absent
        = (Return tt, w')
        /\ queries w'
           = [existence_query Lab.subject;
              statement Lab.subject [] [] false false;
              existence_query Lab.subject;
              statement Lab.subject [] [] false false]).
Proof.
  assert (Hne : [Lab.mouse; Lab.mouse_with_photo] <> []) by discriminate.
  split; [reflexivity|]. split; [reflexivity|]. split; [exact Hne|].
  split; [reflexivity|]. split; [reflexivity|].
  destruct (batch_insert_successive Lab.subject [Lab.mouse; Lab.mouse_with_photo]
              (mkKwargs None (Some true)) Lab.fresh)
    as (Hiter & Hbatch & Hcount & _).
  destruct (batch_insert_successive Lab.subject [Mapping []; Mapping []]
              Lab.no_kwargs Lab.absent)
    as (_ & _ & _ & Hcalls & _).
  split.
  - destruct (Hcount Lab.subject_columns (snd (heading Lab.subject Lab.fresh))
                eq_refl eq_refl Hne eq_refl)
      as (w' & Hrun & _ & Hq & _).
    exists w'. split; [|exact Hq].
    rewrite Hbatch, <- Hiter. exact Hrun.
  - destruct (Hcalls eq_refl) as (w' & _ & Hrun & _ & Hq).
    exists w'. split; [exact Hrun|]. rewrite Hq. reflexivity.
Defined.

(** delete on the lab: at once with safe mode off, nothing sent on the
    answer no, delete_quick after the prompt on the answer yes. *)
Lemma delete_safemode_witness :
  safemode (Lab.with_safemode ["no"] Lab.loaded) = true
  /\ safemode Lab.loaded = false
  /\ delete Lab.subject Lab.loaded = delete_quick Lab.subject Lab.loaded
  /\ queries (snd (delete Lab.subject (Lab.with_safemode ["no"] Lab.loaded)))
     = queries (Lab.with_safemode ["no"] Lab.loaded)
  /\ delete Lab.subject (Lab.with_safemode ["yes"] Lab.loaded)
     = delete_quick Lab.subject
         (snd (user_choice delete_prompt "no"
                 (Lab.with_safemode ["yes"] Lab.loaded))).
Proof.
  split; [reflexivity|]. split; [reflexivity|].
  destruct (delete_safemode Lab.subject Lab.loaded) as (Hoff & _ & _).
  destruct (delete_safemode Lab.subject (Lab.with_safemode ["no"] Lab.loaded))
    as (_ & Hno & _).
  destruct (delete_safemode Lab.subject (Lab.with_safemode ["yes"] Lab.loaded))
    as (_ & Hyes & _).
  split; [exact (Hoff eq_refl)|].
  destruct (Hno eq_refl "no"
              (snd (user_choice delete_prompt "no"
                      (Lab.with_safemode ["no"] Lab.loaded))) eq_refl)
    as (_ & Hdeclined).
  destruct (Hyes eq_refl "yes"
              (snd (user_choice delete_prompt "no"
                      (Lab.with_safemode ["yes"] Lab.loaded))) eq_refl)
    as (Hconfirmed & _).
  split; [|exact (Hconfirmed eq_refl)].
  destruct (Hdeclined ltac:(discriminate)) as (Hret & _ & Hq).
  rewrite Hret. exact Hq.
Defined.

(** ** Further properties of relation.py *)

(** *** Splitting and stripping *)

Lemma append_assoc (a b c : string) : (a +++ b) +++ c = a +++ b +++ c.
Proof. induction a as [|x a IH]; cbn; [reflexivity | rewrite IH; reflexivity]. Qed.

Lemma count_char_append c a b :
  count_char c (a +++ b) = (count_char c a + count_char c b)%nat.
Proof.
  induction a as [|x a IH]; cbn; [reflexivity|].
  destruct (Ascii.eqb x c); rewrite IH; reflexivity.
Qed.

Lemma split_length c s :
  List.length (PyStr.split c s) = S (count_char c s).
Proof.
  induction s as [|a rest IH]; cbn; [reflexivity|].
  destruct (Ascii.eqb a c); cbn; [rewrite IH; reflexivity|].
  destruct (PyStr.split c rest); cbn in *; [discriminate | exact IH].
Qed.

Lemma split_none c s : count_char c s = O -> PyStr.split c s = [s].
Proof.
  induction s as [|a rest IH]; cbn; [reflexivity|].
  destruct (Ascii.eqb a c); [discriminate|].
  intros H. rewrite (IH H). reflexivity.
Qed.

Lemma split_append c a b :
  count_char c a = O ->
  PyStr.split c (a +++ String c b) = a :: PyStr.split c b.
Proof.
  induction a as [|x a IH]; cbn.
  - intros _. rewrite Ascii.eqb_refl. reflexivity.
  - destruct (Ascii.eqb x c); [discriminate|].
    intros H. rewrite (IH H). reflexivity.
Qed.

Lemma rstrip_closing c s :
  count_char c s = O -> PyStr.rstrip c (s +++ String c EmptyString) = s.
Proof.
  induction s as [|a rest IH]; cbn.
  - intros _. rewrite Ascii.eqb_refl. reflexivity.
  - destruct (Ascii.eqb a c) eqn:E; [discriminate|].
    intros H. rewrite (IH H). destruct rest; reflexivity.
Qed.

Lemma strip_quoted c s :
  count_char c s = O ->
  PyStr.strip c (String c (s +++ String c EmptyString)) = s.
Proof.
  intros H. unfold PyStr.strip. cbn [PyStr.lstrip]. rewrite Ascii.eqb_refl.
  destruct s as [|a rest].
  - cbn. rewrite Ascii.eqb_refl. reflexivity.
  - cbn [String.append PyStr.lstrip]. cbn in H.
    destruct (Ascii.eqb a c) eqn:E; [discriminate|].
    apply (rstrip_closing c (String a rest)). cbn. rewrite E. exact H.
Qed.

Lemma parse_full_table_name db tbl :
  count_char "." db = O -> count_char "." tbl = O ->
  count_char "`" db = O -> count_char "`" tbl = O ->
  parse_name ("`" +++ db +++ "`.`" +++ tbl +++ "`") = Some (db, tbl).
Proof.
  intros Hd Ht Hd' Ht'. unfold parse_name.
  assert (E : "`" +++ db +++ "`.`" +++ tbl +++ "`"
              = (String "`" (db +++ String "`" EmptyString))
                  +++ String "." (String "`" (tbl +++ String "`" EmptyString))).
  { cbn. f_equal. rewrite append_assoc. reflexivity. }
  rewrite E, split_append.
  - rewrite split_none.
    + rewrite !strip_quoted by assumption. reflexivity.
    + cbn. rewrite count_char_append, Ht. reflexivity.
  - cbn. rewrite count_char_append, Hd. reflexivity.
Qed.

Section Further_properties.

Context `{Collab : Collaborators}.

(** *** FreeRelation and descendants *)

Lemma FreeRelation_parse name w :
  FreeRelation name w
  = match parse_name name with
    | Some (db, tbl) =>
        (Return (mkRelation db tbl (List.length (heap w)) EmptyString),
         snd (new_heading w))
    | None =>
        (Raise (ValueError
                  (if Nat.eqb (count_char "." name) 0
                   then "not enough values to unpack (expected 2, got 1)"
                   else "too many values to unpack (expected 2)")), w)
    end.
Proof.
  unfold FreeRelation, parse_name.
  pose proof (split_length "." name) as Hlen.
  destruct (PyStr.split "." name) as [|a [|b [|c l]]]; cbn in Hlen.
  - discriminate.
  - injection Hlen as <-. reflexivity.
  - reflexivity.
  - injection Hlen as <-. reflexivity.
Qed.

(** The constructor of FreeRelation returns exactly when the name has one
    dot; otherwise it raises ValueError and leaves the world as it is: no
    Heading object is made.  It never sends a query. *)
Theorem FreeRelation_needs_one_dot name w :
  (count_char "." name = 1%nat ->
     exists r,
       FreeRelation name w = (Return r, snd (new_heading w))
       /\ parse_name name = Some (database r, table_name r)
       /\ _heading r = List.length (heap w)
       /\ queries (snd (new_heading w)) = queries w)
  /\ (count_char "." name = 0%nat ->
        FreeRelation name w
        = (Raise (ValueError "not enough values to unpack (expected 2, got 1)"),
           w))
  /\ ((1 < count_char "." name)%nat ->
        FreeRelation name w
        = (Raise (ValueError "too many values to unpack (expected 2)"), w)).
Proof.
  rewrite FreeRelation_parse. unfold parse_name.
  pose proof (split_length "." name) as Hlen.
  destruct (PyStr.split "." name) as [|a [|b [|c l]]]; cbn in Hlen;
    try discriminate; injection Hlen as <-.
  - split; [discriminate|]. split; [reflexivity|]. intros H. lia.
  - split; [|split; [discriminate | intros H; lia]].
    intros _. eexists. split; [reflexivity|]. cbn. auto.
  - split; [discriminate|]. split; [discriminate|]. reflexivity.
Qed.

(** A relation whose database and table names hold neither dot nor
    backtick is rebuilt from its full table name: FreeRelation gives a
    relation of the same database, table and full table name, with a new,
    empty Heading object of its own and no restriction. *)
Theorem FreeRelation_round_trip r w :
  count_char "." (database r) = O -> count_char "." (table_name r) = O ->
  count_char "`" (database r) = O -> count_char "`" (table_name r) = O ->
  exists r' w',
    FreeRelation (full_table_name r) w = (Return r', w')
    /\ database r' = database r /\ table_name r' = table_name r
    /\ full_table_name r' = full_table_name r
    /\ where_clause r' = EmptyString
    /\ _heading r' = List.length (heap w)
    /\ heap w' = heap w ++ [[]]
    /\ cached_heading r' w' = []
    /\ queries w' = queries w.
Proof.
  intros Hd Ht Hd' Ht'. rewrite FreeRelation_parse. unfold full_table_name.
  rewrite (parse_full_table_name _ _ Hd Ht Hd' Ht').
  eexists _, _. split; [reflexivity|].
  unfold cached_heading. cbn.
  repeat split. rewrite nth_middle. reflexivity.
Qed.

Lemma built_length_le ref names :
  (List.length (built ref names) <= List.length names)%nat.
Proof.
  revert ref. induction names as [|n ns IH]; intros ref; cbn; [lia|].
  destruct (parse_name n) as [[db tbl]|]; cbn; [|lia].
  specialize (IH (S ref)). lia.
Qed.

Lemma declared_relations_inv names :
  forall w rels w',
    declared_relations names w = (Return rels, w') ->
    exists flags,
      flags = declared_flags (server w) (built (List.length (heap w)) names)
      /\ List.length flags = List.length names
      /\ List.length (built (List.length (heap w)) names) = List.length names
      /\ rels = select flags (built (List.length (heap w)) names)
      /\ queries w'
         = queries w ++ map existence_query (built (List.length (heap w)) names)
      /\ heap w' = heap w ++ repeat [] (List.length names)
      /\ same_surroundings w w'.
Proof.
  induction names as [|name rest IH]; intros w rels w' Hrun.
  - cbn in Hrun. injection Hrun as <- <-. exists []. cbn.
    rewrite !app_nil_r. unfold same_surroundings. auto 10.
  - cbn [declared_relations] in Hrun. unfold bind in Hrun.
    rewrite FreeRelation_parse in Hrun. cbn [built].
    destruct (parse_name name) as [[db tbl]|]; [|discriminate].
    unfold is_declared, bind, ret in Hrun.
    fold (existence_query (mkRelation db tbl (List.length (heap w)) EmptyString))
      in Hrun.
    rewrite connection_query_returns in Hrun.
    set (rel := mkRelation db tbl (List.length (heap w)) EmptyString) in *.
    set (w1 := snd (new_heading w)) in *.
    set (w2 := after_query (existence_query rel) w1) in *.
    destruct (declared_relations rest w2) as [[others|e] w3] eqn:Hrest;
      [|discriminate].
    injection Hrun as <- <-.
    destruct (IH w2 others w3 Hrest)
      as (flags & Hflags & Hlen & Hblen & Hsel & Hq & Hheap & He & Hs & Ha & Hc).
    destruct (after_query_frame (existence_query rel) w1)
      as (Hq1 & Hsv1 & He1 & Hh1 & Hs1 & Ha1 & Hc1).
    fold w2 in Hq1, Hsv1, He1, Hh1, Hs1, Ha1, Hc1.
    assert (Hw2 : List.length (heap w2) = S (List.length (heap w))).
    { rewrite Hh1. unfold w1, new_heading. cbn. rewrite length_app. cbn. lia. }
    rewrite Hw2 in *.
    exists ((0 <? rowcount (snd (execute (server w1) (existence_query rel))))
              :: flags).
    split.
    { cbn [declared_flags]. rewrite Hflags, Hsv1.
      change (server w1) with (server w).
      destruct (execute (server w) (existence_query rel)); reflexivity. }
    split; [cbn; congruence|]. split; [cbn; congruence|].
    split; [|split; [|split]].
    + cbn [select]. destruct (0 <? rowcount _); rewrite Hsel; reflexivity.
    + cbn [map]. rewrite Hq, Hq1. unfold w1, new_heading. cbn [snd queries].
      rewrite <- app_assoc. reflexivity.
    + rewrite Hheap, Hh1. unfold w1, new_heading. cbn [snd heap repeat List.length].
      rewrite <- app_assoc. reflexivity.
    + unfold same_surroundings. rewrite He, Hs, Ha, Hc, He1, Hs1, Ha1, Hc1.
      unfold w1, new_heading. cbn. auto.
Qed.

Lemma built_headings ref names :
  map _heading (built ref names)
  = seq ref (List.length (built ref names)).
Proof.
  revert ref. induction names as [|n ns IH]; intros ref; [reflexivity|].
  cbn [built]. destruct (parse_name n) as [[db tbl]|]; [|reflexivity].
  cbn. rewrite IH. reflexivity.
Qed.

Lemma select_In {A} (flags : list bool) (l : list A) x :
  In x (select flags l) -> In x l.
Proof.
  revert l. induction flags as [|f fs IH]; intros [|y l]; cbn;
    try contradiction; try (destruct f; contradiction).
  destruct f; cbn; intros H.
  - destruct H as [H|H]; [left; exact H | right; apply IH; exact H].
  - right. apply IH. exact H.
Qed.

Lemma select_NoDup {A B} (f : A -> B) (flags : list bool) (l : list A) :
  NoDup (map f l) -> NoDup (map f (select flags l)).
Proof.
  revert l. induction flags as [|b fs IH]; intros [|y l] Hnd; cbn;
    try constructor; try (destruct b; constructor).
  cbn in Hnd. inversion Hnd as [|? ? Hnot Hrest]; subst.
  destruct b; cbn; [|apply IH; exact Hrest].
  constructor; [|apply IH; exact Hrest].
  intros Hin. apply Hnot. apply in_map_iff in Hin.
  destruct Hin as (z & Hz & Hin). apply in_map_iff. exists z.
  split; [exact Hz|]. apply (select_In fs). exact Hin.
Qed.

(** What descendants returns and leaves behind: the names of the graph all
    parsed, one relation was built per name and one existence check sent per
    name, in the order of the graph, declared or not; the list returned is
    made of the relations built whose existence check found a table, in
    that order, the others left out; each has a new Heading object of its
    own, empty, shared with no other relation of the list and with none
    that existed before; the dependency graph, the console and the
    configuration are as they were. *)
Theorem descendants_fresh_relations r w rels w' :
  descendants r w = (Return rels, w') ->
  let names := get_descendants (erd w) (full_table_name r) in
  let made := built (List.length (heap w)) names in
  List.length made = List.length names
  /\ List.length (declared_flags (server w) made) = List.length names
  /\ rels = select (declared_flags (server w) made) made
  /\ queries w' = queries w ++ map existence_query made
  /\ heap w' = heap w ++ repeat [] (List.length names)
  /\ Forall (fun rel =>
               (List.length (heap w) <= _heading rel < List.length (heap w'))%nat
               /\ cached_heading rel w' = []) rels
  /\ NoDup (map _heading rels)
  /\ same_surroundings w w'.
Proof.
  intros Hrun names made. unfold descendants, erd_get_descendants, bind in Hrun.
  fold names in Hrun.
  destruct (declared_relations_inv names w rels w' Hrun)
    as (flags & Hflags & Hlen & Hblen & Hsel & Hq & Hheap & Hsame).
  fold made in Hflags, Hblen, Hsel, Hq. subst flags.
  split; [exact Hblen|]. split; [exact Hlen|]. split; [exact Hsel|].
  split; [exact Hq|]. split; [exact Hheap|].
  assert (Hrefs : forall rel, In rel made ->
            (List.length (heap w) <= _heading rel
             < List.length (heap w) + List.length names)%nat).
  { intros rel Hin. apply (in_map _heading) in Hin.
    unfold made in Hin. rewrite built_headings in Hin. fold made in Hin.
    apply in_seq in Hin. lia. }
  split; [|split; [|exact Hsame]].
  - apply Forall_forall. intros rel Hin. rewrite Hsel in Hin.
    apply select_In in Hin. specialize (Hrefs rel Hin).
    unfold cached_heading. rewrite Hheap, length_app, repeat_length.
    split; [lia|].
    rewrite app_nth2 by lia. apply nth_repeat.
  - rewrite Hsel. apply select_NoDup. unfold made.
    rewrite built_headings. apply seq_NoDup.
Qed.


(** *** The heading accessor *)

Lemma assign_length {A} i (x : A) l : List.length (assign i x l) = List.length l.
Proof.
  revert i. induction l as [|y l IH]; intros [|i]; cbn; try reflexivity.
  rewrite IH. reflexivity.
Qed.

Lemma nth_assign_other {A} i j (x : A) l d :
  j <> i -> nth j (assign i x l) d = nth j l d.
Proof.
  revert i j. induction l as [|y l IH]; intros [|i] [|j] H; cbn;
    try reflexivity; try congruence.
  apply IH. congruence.
Qed.

Lemma heading_frame r w h w1 :
  heading r w = (Return h, w1) ->
  same_surroundings w w1 /\ same_headings_but (_heading r) w w1.
Proof.
  unfold same_surroundings, same_headings_but. intros Hh.
  destruct (heading_bool (cached_heading r w)) eqn:Hb.
  - rewrite (heading_hit r w Hb) in Hh. injection Hh as _ <-. auto 10.
  - destruct (table_exists r w) eqn:Hd.
    + pose proof (heading_load r w Hb Hd) as Hl. cbv zeta in Hl.
      rewrite Hl in Hh. injection Hh as _ <-.
      unfold write_heading. cbn [snd erd safemode answers console heap].
      destruct (after_query_frame (metadata_query r)
                  (after_query (existence_query r) w))
        as (_ & _ & -> & -> & -> & -> & ->).
      destruct (after_query_frame (existence_query r) w)
        as (_ & _ & -> & -> & -> & -> & ->).
      rewrite assign_length. repeat split.
      intros other Ho. apply nth_assign_other. exact Ho.
    + rewrite (heading_absent r w Hb Hd) in Hh. injection Hh as _ <-.
      destruct (after_query_frame (existence_query r) w)
        as (_ & _ & -> & -> & -> & -> & ->).
      auto 10.
Qed.

(** Absence is not remembered: when the Heading object is empty and the
    table does not exist, the accessor returns the empty heading after one
    existence check, and the next access checks again: it returns the empty
    heading after a second check when the table is still absent, and loads
    the columns when the table exists by then. *)
Theorem heading_absence_not_cached r w :
  (_heading r < List.length (heap w))%nat ->
  heading_bool (cached_heading r w) = false ->
  table_exists r w = false ->
  let w1 := after_query (existence_query r) w in
  heading r w = (Return [], w1)
  /\ (table_exists r w1 = false ->
        exists w2, heading r w1 = (Return [], w2)
                   /\ queries w2
                      = queries w ++ [existence_query r; existence_query r])
  /\ (table_exists r w1 = true ->
        exists h w2, heading r w1 = (Return h, w2)
                     /\ h = columns (snd (execute
                                            (server (after_query (existence_query r) w1))
                                            (metadata_query r)))
                     /\ queries w2
                        = queries w ++ [existence_query r; existence_query r;
                                        metadata_query r]).
Proof.
  intros Href Hb Hd w1.
  assert (Hheap : heap w1 = heap w) by apply after_query_frame.
  assert (Hq : queries w1 = queries w ++ [existence_query r])
    by apply after_query_frame.
  assert (Hb1 : heading_bool (cached_heading r w1) = false)
    by (unfold cached_heading; rewrite Hheap; exact Hb).
  split; [apply heading_absent; assumption|]. split.
  - intros Hd1. eexists. split; [apply heading_absent; assumption|].
    destruct (after_query_frame (existence_query r) w1) as [-> _].
    rewrite Hq, <- app_assoc. reflexivity.
  - intros Hd1. pose proof (heading_load r w1 Hb1 Hd1) as Hl. cbv zeta in Hl.
    eexists _, _. split; [exact Hl|]. split.
    + unfold cached_heading, write_heading. cbn [snd heap].
      apply nth_assign.
      destruct (after_query_frame (metadata_query r)
                  (after_query (existence_query r) w1)) as (_ & _ & _ & -> & _).
      destruct (after_query_frame (existence_query r) w1) as (_ & _ & _ & -> & _).
      rewrite Hheap. exact Href.
    + unfold write_heading. cbn [snd queries].
      destruct (after_query_frame (metadata_query r)
                  (after_query (existence_query r) w1)) as [-> _].
      destruct (after_query_frame (existence_query r) w1) as [-> _].
      rewrite Hq, <- !app_assoc. reflexivity.
Qed.

(** Relations that hold the same Heading object share what is loaded: once
    the accessor of one has returned a non-empty heading, the accessor of
    the other returns that heading and sends nothing.  A relation with a
    Heading object of its own is not affected by the load. *)
Theorem heading_shared_object r1 r2 w h w1 :
  heading r1 w = (Return h, w1) ->
  heading_bool h = true ->
  (_heading r2 = _heading r1 -> heading r2 w1 = (Return h, w1))
  /\ (_heading r2 <> _heading r1 ->
        cached_heading r2 w1 = cached_heading r2 w).
Proof.
  intros Hh Hb. split.
  - intros Href. destruct (heading_inv r1 w h w1 Hh) as (Hc & _).
    assert (Hc2 : cached_heading r2 w1 = h)
      by (unfold cached_heading in *; rewrite Href; symmetry; exact Hc).
    rewrite <- Hc2. apply heading_hit. rewrite Hc2. exact Hb.
  - intros Href. destruct (heading_frame r1 w h w1 Hh) as (_ & _ & Hother).
    apply Hother. exact Href.
Qed.

(** *** insert *)

(** A value that is neither a structured row nor a mapping is refused with
    DataJointError, whatever the flags, once the heading accessor has run:
    nothing is sent but the queries of the heading resolution. *)
Theorem insert_unsupported_type r type_repr ignore_errors replace w :
  exists h w1,
    heading r w = (Return h, w1)
    /\ insert r (Other type_repr) ignore_errors replace w
       = (Raise (DataJointError
                   ("Datatype " +++ type_repr +++ " cannot be inserted")), w1)
    /\ queries w1 = queries w ++ resolution_queries r w
    /\ (heading_bool (cached_heading r w) = true -> w1 = w).
Proof.
  destruct (heading_returns r w) as (h & w1 & Hh & _ & Hq & Hsame).
  exists h, w1. split; [exact Hh|]. split; [|split; assumption].
  unfold insert. run. rewrite Hh. reflexivity.
Qed.

(** A record without fields is not refused: whatever the heading, insert
    sends a statement with an empty pair of backticks for the columns, an
    empty VALUES list and no argument. *)
Theorem insert_empty_record r tup ignore_errors replace w :
  tuple_fields tup = Some [] ->
  exists h w1,
    heading r w = (Return h, w1)
    /\ insert r tup ignore_errors replace w
       = (Return tt,
          after_query
            (mkQuery (insert_verb ignore_errors replace +++ " INTO "
                        +++ from_clause r +++ " (``) VALUES ()") [] false)
            w1).
Proof.
  intros Ht. destruct (heading_returns r w) as (h & w1 & Hh & _).
  exists h, w1. split; [exact Hh|].
  rewrite (insert_valid r tup [] ignore_errors replace w h w1 Ht Hh eq_refl).
  unfold statement, blob_columns, columns_present.
  assert (Hnone : filter (contains (@nil (string * Value))) (heading_iter h) = []).
  { induction (heading_iter h) as [|n ns IH]; [reflexivity | exact IH]. }
  rewrite Hnone. reflexivity.
Qed.

Lemma contains_In (fields : list (string * Value)) n :
  contains fields n = true <-> In n (map fst fields).
Proof.
  unfold contains. rewrite existsb_exists. split.
  - intros (kv & Hin & Hk). apply String.eqb_eq in Hk. subst n.
    apply in_map. exact Hin.
  - intros Hin. apply in_map_iff in Hin. destruct Hin as (kv & <- & Hin).
    exists kv. split; [exact Hin | apply String.eqb_refl].
Qed.

Lemma heading_contains_In h n :
  heading_contains h n = true <-> In n (heading_iter h).
Proof.
  unfold heading_contains, heading_iter. rewrite existsb_exists. split.
  - intros (a & Hin & Hk). apply String.eqb_eq in Hk. subst n.
    apply in_map. exact Hin.
  - intros Hin. apply in_map_iff in Hin. destruct Hin as (a & <- & Hin).
    exists a. split; [exact Hin | apply String.eqb_refl].
Qed.

(** No field of a valid record is left out or sent twice: when the names
    of the heading are distinct and so are the field names of the record,
    the columns of the statement are the field names of the record, in
    another order. *)
Theorem insert_sends_every_field r tup fields ignore_errors replace w h w1 :
  tuple_fields tup = Some fields ->
  heading r w = (Return h, w1) ->
  valid_fields h fields = true ->
  NoDup (heading_iter h) ->
  NoDup (map fst fields) ->
  insert r tup ignore_errors replace w
  = (Return tt, after_query (statement r h fields ignore_errors replace) w1)
  /\ Permutation (columns_present h fields) (map fst fields)
  /\ List.length (columns_present h fields) = List.length fields.
Proof.
  intros Ht Hh Hv Hnames Hkeys.
  split; [apply insert_valid; assumption|].
  assert (Hperm : Permutation (columns_present h fields) (map fst fields)).
  { apply NoDup_Permutation.
    - unfold columns_present. apply NoDup_filter. exact Hnames.
    - exact Hkeys.
    - intros n. unfold columns_present. rewrite filter_In, contains_In.
      split; [tauto|]. intros Hin. split; [|exact Hin].
      apply heading_contains_In. unfold valid_fields in Hv.
      rewrite forallb_forall in Hv. apply Hv. exact Hin. }
  split; [exact Hperm|].
  rewrite (Permutation_length Hperm). apply length_map.
Qed.

Lemma insert_frame r tup ignore_errors replace w :
  same_surroundings w (snd (insert r tup ignore_errors replace w))
  /\ same_headings_but (_heading r) w (snd (insert r tup ignore_errors replace w)).
Proof.
  destruct (heading_returns r w) as (h & w1 & Hh & _).
  destruct (heading_frame r w h w1 Hh) as (Hs & Hb).
  unfold insert. run. rewrite Hh.
  destruct (match tup with
            | Void fields => record_parts h fields
            | Mapping items => record_parts h items
            | Other type_repr =>
                Raise (DataJointError
                         ("Datatype " +++ type_repr +++ " cannot be inserted"))
            end) as [[[values args] attributes]|e]; [|split; assumption].
  rewrite connection_query_returns. cbn [snd].
  unfold same_surroundings, same_headings_but in *.
  destruct (after_query_frame
              (mkQuery (insert_sql r ignore_errors replace attributes values)
                 args false) w1)
    as (_ & _ & -> & -> & -> & -> & ->).
  split; assumption.
Qed.

(** Whatever the record and however the call ends, insert never prompts or
    prints, leaves the dependency graph and the configuration alone, only
    adds to the log of queries, and touches no Heading object but the one
    of its relation. *)
Theorem insert_touches_only_its_heading r tup ignore_errors replace w :
  let w' := snd (insert r tup ignore_errors replace w) in
  same_surroundings w w'
  /\ same_headings_but (_heading r) w w'
  /\ exists sent, queries w' = queries w ++ sent.
Proof.
  intros w'. destruct (insert_frame r tup ignore_errors replace w) as (Hs & Hb).
  split; [exact Hs|]. split; [exact Hb|].
  destruct (heading_returns r w) as (h & w1 & Hh & _ & Hq & _).
  unfold w', insert. run. rewrite Hh.
  destruct (match tup with
            | Void fields => record_parts h fields
            | Mapping items => record_parts h items
            | Other type_repr =>
                Raise (DataJointError
                         ("Datatype " +++ type_repr +++ " cannot be inserted"))
            end) as [[[values args] attributes]|e].
  - rewrite connection_query_returns. cbn [snd].
    destruct (after_query_frame
                (mkQuery (insert_sql r ignore_errors replace attributes values)
                   args false) w1) as [-> _].
    rewrite Hq, <- app_assoc. eexists. reflexivity.
  - cbn [snd]. eexists. exact Hq.
Qed.

(** *** iter_insert *)

Lemma successive_inserts_app r kwargs xs ys w :
  successive_inserts r kwargs (xs ++ ys) w
  = match successive_inserts r kwargs xs w with
    | (Return _, w') => successive_inserts r kwargs ys w'
    | (Raise e, w') => (Raise e, w')
    end.
Proof.
  revert w. induction xs as [|x xs IH]; intros w; [reflexivity|].
  cbn [app successive_inserts].
  destruct (insert_kw r x kwargs w) as [[[]|e] w']; [apply IH | reflexivity].
Qed.

(** Inserting a sequence made of two parts is inserting the first part,
    then, when that went through, the second part from where the first left
    the world; an exception in the first part is the outcome of the whole.
    So a batch may be cut into chunks. *)
Theorem iter_insert_in_chunks r kwargs xs ys w :
  iter_insert r (xs ++ ys) kwargs w
  = match iter_insert r xs kwargs w with
    | (Return _, w') => iter_insert r ys kwargs w'
    | (Raise e, w') => (Raise e, w')
    end
  /\ batch_insert r (xs ++ ys) kwargs w
     = match batch_insert r xs kwargs w with
       | (Return _, w') => batch_insert r ys kwargs w'
       | (Raise e, w') => (Raise e, w')
       end.
Proof.
  assert (H : iter_insert r (xs ++ ys) kwargs w
              = match iter_insert r xs kwargs w with
                | (Return _, w') => iter_insert r ys kwargs w'
                | (Raise e, w') => (Raise e, w')
                end).
  { rewrite !iter_insert_successive, successive_inserts_app.
    destruct (successive_inserts r kwargs xs w) as [[[]|e] w'];
      [rewrite iter_insert_successive|]; reflexivity. }
  split; exact H.
Qed.

Lemma insert_kw_refused r row kwargs w h w1 :
  heading r w = (Return h, w1) ->
  valid_tuple h row = false ->
  exists e,
    insert_kw r row kwargs w = (Raise e, w1)
    /\ ((exists msg, e = KeyError msg) \/ (exists msg, e = DataJointError msg)).
Proof.
  intros Hh Hv. unfold valid_tuple in Hv. unfold insert_kw.
  destruct (tuple_fields row) as [fields|] eqn:Ht.
  - destruct (check_fields_unknown h _ Hv)
      as (known & name & rest & _ & _ & _ & Hc).
    eexists. split; [|left; eexists; reflexivity].
    apply (insert_invalid r row fields _ _ w h w1 _ Ht Hh Hc).
  - destruct row; cbn in Ht; try discriminate.
    eexists. split; [|right; eexists; reflexivity].
    unfold insert. run. rewrite Hh. reflexivity.
Qed.

(** A batch stops at its first record that insert refuses: with the
    heading loaded, the statements of the valid records before it have been
    sent, one each and in order, the exception of the refused record is the
    outcome, and no record after it is looked at. *)
Theorem iter_insert_stops_at_first_refusal r kwargs h good bad rest w :
  cached_heading r w = h ->
  heading_bool h = true ->
  forallb (valid_tuple h) good = true ->
  valid_tuple h bad = false ->
  exists e w',
    iter_insert r (good ++ bad :: rest) kwargs w = (Raise e, w')
    /\ w' = after_queries (map (statement_kw r h kwargs) good) w
    /\ queries w' = queries w ++ map (statement_kw r h kwargs) good
    /\ ((exists msg, e = KeyError msg) \/ (exists msg, e = DataJointError msg)).
Proof.
  intros Hc Hb Hgood Hbad.
  set (w' := after_queries (map (statement_kw r h kwargs) good) w).
  assert (Hc' : cached_heading r w' = h)
    by (unfold cached_heading, w'; rewrite heap_after_queries; exact Hc).
  assert (Hh : heading r w' = (Return h, w'))
    by (rewrite <- Hc'; apply heading_hit; rewrite Hc'; exact Hb).
  destruct (insert_kw_refused r bad kwargs w' h w' Hh Hbad) as (e & Hins & He).
  exists e, w'. split; [|split; [reflexivity|split; [|exact He]]].
  - rewrite iter_insert_successive, successive_inserts_app.
    rewrite (successive_inserts_loaded r kwargs h good Hb Hgood w Hc).
    fold w'. cbn [successive_inserts]. rewrite Hins. reflexivity.
  - apply queries_after_queries.
Qed.

(** *** drop_quick and drop *)

Lemma drop_quick_cases r w :
  (table_exists r w = true ->
     drop_quick r w
     = (Return tt,
        snd (erd_clear_dependency (full_table_name r)
               (after_query (drop_query r) (after_query (existence_query r) w)))))
  /\ (table_exists r w = false ->
        drop_quick r w = (Return tt, after_query (existence_query r) w)).
Proof.
  unfold drop_quick, is_declared, table_exists. run.
  fold (existence_query r) (drop_query r).
  rewrite connection_query_returns.
  split; intros ->; [rewrite connection_query_returns|]; reflexivity.
Qed.

(** drop_quick on a table that does not exist sends the existence check
    and nothing else; on a table that exists it sends DROP TABLE and clears
    the table from the dependency graph.  Either way the Heading objects
    are left as they are, so a relation whose heading was loaded goes on
    serving it without a query once its table is dropped, and a record
    valid for that heading is still sent as a statement. *)
Theorem drop_quick_keeps_heading r w :
  exists w',
    drop_quick r w = (Return tt, w')
    /\ (table_exists r w = true ->
          queries w' = queries w ++ [existence_query r; drop_query r]
          /\ erd w' = clear_dependency (erd w) (full_table_name r))
    /\ (table_exists r w = false ->
          w' = after_query (existence_query r) w
          /\ queries w' = queries w ++ [existence_query r] /\ erd w' = erd w)
    /\ heap w' = heap w
    /\ (heading_bool (cached_heading r w) = true ->
          heading r w' = (Return (cached_heading r w), w')
          /\ forall tup fields ignore_errors replace,
               tuple_fields tup = Some fields ->
               valid_fields (cached_heading r w) fields = true ->
               insert r tup ignore_errors replace w'
               = (Return tt,
                  after_query
                    (statement r (cached_heading r w) fields ignore_errors
                       replace) w')).
Proof.
  destruct (drop_quick_cases r w) as (Hyes & Hno).
  destruct (after_query_frame (existence_query r) w)
    as (Hq1 & _ & He1 & Hh1 & _).
  destruct (after_query_frame (drop_query r) (after_query (existence_query r) w))
    as (Hq2 & _ & He2 & Hh2 & _).
  assert (Hstore : exists w', drop_quick r w = (Return tt, w')
                              /\ heap w' = heap w).
  { destruct (table_exists r w).
    - eexists. split; [apply Hyes; reflexivity|].
      unfold erd_clear_dependency. cbn [snd heap]. congruence.
    - eexists. split; [apply Hno; reflexivity | exact Hh1]. }
  destruct Hstore as (w' & Hrun & Hheap).
  assert (Hc : cached_heading r w' = cached_heading r w)
    by (unfold cached_heading; rewrite Hheap; reflexivity).
  exists w'. split; [exact Hrun|].
  split; [|split; [|split; [exact Hheap|]]].
  - intros Hd. rewrite (Hyes Hd) in Hrun. injection Hrun as <-.
    unfold erd_clear_dependency. cbn [snd queries erd].
    rewrite Hq2, Hq1, <- app_assoc, He2, He1. auto.
  - intros Hd. rewrite (Hno Hd) in Hrun. injection Hrun as <-. auto.
  - intros Hb.
    assert (Hh : heading r w' = (Return (cached_heading r w), w'))
      by (rewrite <- Hc; apply heading_hit; rewrite Hc; exact Hb).
    split; [exact Hh|].
    intros tup fields ignore_errors replace Ht Hv.
    apply insert_valid; assumption.
Qed.

Lemma announce_returns rel w :
  exists w' line,
    announce rel w = (Return tt, w')
    /\ queries w' = queries w ++ [count_query rel]
    /\ console w' = console w ++ [Print line]
    /\ erd w' = erd w /\ heap w' = heap w
    /\ safemode w' = safemode w /\ answers w' = answers w.
Proof.
  unfold announce, relation_len, print. run.
  fold (count_query rel). rewrite connection_query_returns.
  destruct (after_query_frame (count_query rel) w)
    as (Hq & _ & He & Hh & Hs & Ha & Hc).
  eexists _, _. split; [reflexivity|].
  cbn [queries console erd heap safemode answers].
  rewrite Hc. auto 10.
Qed.

Lemma for_each_announce_returns rels :
  forall w, exists w' lines,
    for_each announce rels w = (Return tt, w')
    /\ List.length lines = List.length rels
    /\ queries w' = queries w ++ map count_query rels
    /\ console w' = console w ++ map Print lines
    /\ erd w' = erd w /\ heap w' = heap w
    /\ safemode w' = safemode w /\ answers w' = answers w.
Proof.
  induction rels as [|rel rest IH]; intros w.
  - exists w, []. cbn. rewrite !app_nil_r. auto 10.
  - cbn [for_each]. unfold bind.
    destruct (announce_returns rel w)
      as (w1 & line & -> & Hq & Hc & He & Hh & Hs & Ha).
    destruct (IH w1)
      as (w' & lines & -> & Hlen & Hq' & Hc' & He' & Hh' & Hs' & Ha').
    exists w', (line :: lines). split; [reflexivity|].
    split; [cbn; congruence|].
    split; [cbn [map]; rewrite Hq', Hq, <- app_assoc; reflexivity|].
    split; [cbn [map]; rewrite Hc', Hc, <- app_assoc; reflexivity|].
    repeat split; congruence.
Qed.

(** When the confirmation of drop is refused, which takes safe mode and an
    answer to the prompt that is not yes, drop returns with nothing
    dropped: after the listing of the descendants the only queries are the
    row counts, one per relation listed; the tables are printed and the
    question is asked, and the dependency graph and the Heading objects stay
    as descendants left them.  The closing message is not printed. *)
Theorem drop_declined r w rels w1 w2 :
  descendants r w = (Return rels, w1) ->
  confirm_drop rels w1 = (Return false, w2) ->
  exists lines asked,
    drop r w = (Return tt, w2)
    /\ safemode w1 = true
    /\ queries w2 = queries w1 ++ map count_query rels
    /\ List.length lines = List.length rels
    /\ console w2
       = console w1
           ++ Print "The following tables are about to be dropped:"
              :: map Print lines ++ asked
    /\ asked <> []
    /\ Forall (eq (Prompt "Proceed?" "no")) asked
    /\ erd w2 = erd w /\ heap w2 = heap w1.
Proof.
  intros Hd Hc.
  assert (Herd : erd w1 = erd w).
  { unfold descendants, erd_get_descendants, bind in Hd.
    destruct (declared_relations_inv _ w rels w1 Hd)
      as (_ & _ & _ & _ & _ & _ & _ & He & _).
    exact He. }
  assert (Hrun : drop r w = (Return tt, w2))
    by (unfold drop; run; rewrite Hd, Hc; reflexivity).
  destruct (safemode w1) eqn:Hs;
    [|rewrite (confirm_drop_off rels w1 Hs) in Hc; discriminate].
  unfold confirm_drop, config_safemode, bind, ret in Hc. cbn [fst snd] in Hc.
  rewrite Hs in Hc. unfold print at 1 in Hc. cbn [fst snd] in Hc.
  match type of Hc with
  | context [for_each announce rels ?w0] =>
      destruct (for_each_announce_returns rels w0)
        as (w' & lines & Hlist & Hlen & Hq & Hcons & He & Hh & Hsm & Ha);
      rewrite Hlist in Hc
  end.
  cbn [queries console erd heap safemode answers] in *.
  destruct (user_choice "Proceed?" "no" w') as [[choice|e] wu] eqn:Hu.
  - injection Hc as _ <-.
    destruct (user_choice_same_state _ _ _ _ _ Hu)
      as ((_ & Hq' & He' & Hh' & _) & asked & Hshown & Hne & Hall).
    exists lines, asked. split; [exact Hrun|]. split; [reflexivity|].
    split; [congruence|]. split; [exact Hlen|].
    split; [rewrite Hshown, Hcons, <- !app_assoc; reflexivity|].
    split; [exact Hne|]. split; [exact Hall|]. split; congruence.
  - unfold user_choice in Hu.
    destruct (ask "Proceed?" "no" (answers w') (console w')) as [[c rest] shown].
    discriminate Hu.
Qed.

Lemma declared_relations_malformed good :
  forall bad rest w,
    List.length (built (List.length (heap w)) good) = List.length good ->
    parse_name bad = None ->
    exists msg w',
      declared_relations (good ++ bad :: rest) w = (Raise (ValueError msg), w')
      /\ queries w'
         = queries w ++ map existence_query (built (List.length (heap w)) good)
      /\ same_surroundings w w'.
Proof.
  induction good as [|name good IH]; intros bad rest w Hlen Hbad.
  - cbn [app declared_relations]. unfold bind.
    rewrite FreeRelation_parse, Hbad. eexists _, w.
    split; [reflexivity|]. cbn. rewrite app_nil_r.
    unfold same_surroundings. auto.
  - cbn [app declared_relations]. unfold bind.
    rewrite FreeRelation_parse. cbn [built] in Hlen |- *.
    destruct (parse_name name) as [[db tbl]|]; [|discriminate].
    unfold is_declared, bind, ret.
    set (rel := mkRelation db tbl (List.length (heap w)) EmptyString) in *.
    fold (existence_query rel). rewrite connection_query_returns.
    set (w1 := snd (new_heading w)) in *.
    set (w2 := after_query (existence_query rel) w1) in *.
    destruct (after_query_frame (existence_query rel) w1)
      as (Hq1 & _ & He1 & Hh1 & Hs1 & Ha1 & Hc1).
    fold w2 in Hq1, He1, Hh1, Hs1, Ha1, Hc1.
    assert (Hw2 : List.length (heap w2) = S (List.length (heap w))).
    { rewrite Hh1. unfold w1, new_heading. cbn. rewrite length_app. cbn. lia. }
    destruct (IH bad rest w2) as (msg & w' & -> & Hq & He & Hs & Ha & Hc).
    + rewrite Hw2. cbn in Hlen. lia.
    + exact Hbad.
    + exists msg, w'. split; [reflexivity|]. rewrite Hw2 in Hq.
      split.
      * cbn [map]. rewrite Hq, Hq1. unfold w1, new_heading. cbn [snd queries].
        rewrite <- app_assoc. reflexivity.
      * unfold same_surroundings. rewrite He, Hs, Ha, Hc, He1, Hs1, Ha1, Hc1.
        unfold w1, new_heading. cbn. auto.
Qed.

(** A name of the dependency graph that does not have exactly one dot
    makes descendants, and with it drop, fail with ValueError: the
    relations named before it have had their existence checked, nothing is
    asked of the user, nothing is printed and no table is dropped. *)
Theorem drop_malformed_name r w good bad rest :
  get_descendants (erd w) (full_table_name r) = good ++ bad :: rest ->
  List.length (built (List.length (heap w)) good) = List.length good ->
  count_char "." bad <> 1%nat ->
  exists msg w',
    descendants r w = (Raise (ValueError msg), w')
    /\ drop r w = (Raise (ValueError msg), w')
    /\ queries w'
       = queries w ++ map existence_query (built (List.length (heap w)) good)
    /\ same_surroundings w w'.
Proof.
  intros Hnames Hgood Hbad.
  assert (Hparse : parse_name bad = None).
  { unfold parse_name. pose proof (split_length "." bad) as Hlen.
    destruct (PyStr.split "." bad) as [|a [|b [|c l]]]; try reflexivity.
    cbn in Hlen. injection Hlen as Hlen. congruence. }
  destruct (declared_relations_malformed good bad rest w Hgood Hparse)
    as (msg & w' & Hrun & Hq & Hsame).
  exists msg, w'.
  assert (Hd : descendants r w = (Raise (ValueError msg), w')).
  { unfold descendants, erd_get_descendants, bind. rewrite Hnames. exact Hrun. }
  split; [exact Hd|]. split; [|split; assumption].
  unfold drop, bind. rewrite Hd. reflexivity.
Qed.

(** When the dependency graph lists nothing for the relation, drop with
    safe mode off drops nothing, not even the table of the relation itself:
    it sends no query, and prints its closing message all the same. *)
Theorem drop_nothing_listed r w :
  get_descendants (erd w) (full_table_name r) = [] ->
  safemode w = false ->
  drop r w = print "Dropped tables.." w
  /\ queries (snd (drop r w)) = queries w
  /\ erd (snd (drop r w)) = erd w
  /\ console (snd (drop r w)) = console w ++ [Print "Dropped tables.."].
Proof.
  intros Hnone Hs.
  assert (Hd : descendants r w = (Return [], w)).
  { unfold descendants, erd_get_descendants, bind. rewrite Hnone. reflexivity. }
  assert (Hrun : drop r w = print "Dropped tables.." w).
  { unfold drop. run. rewrite Hd, (confirm_drop_off [] w Hs). reflexivity. }
  rewrite Hrun. repeat split.
Qed.

(** *** size_on_disk *)

(** When the status query yields no row, as for a table that does not
    exist, size_on_disk raises TypeError; when the row lacks one of the two
    lengths it raises KeyError with the name of the first one missing.  In
    every case the one status query has been sent. *)
Theorem size_on_disk_errors r w :
  let answer := fetchone (snd (execute (server w) (status_query r))) in
  let w' := after_query (status_query r) w in
  (answer = None ->
     size_on_disk r w
     = (Raise (TypeError "'NoneType' object is not subscriptable"), w'))
  /\ (forall row, answer = Some row -> contains row "Data_length" = false ->
        size_on_disk r w = (Raise (KeyError "Data_length"), w'))
  /\ (forall row, answer = Some row -> contains row "Data_length" = true ->
        contains row "Index_length" = false ->
        size_on_disk r w = (Raise (KeyError "Index_length"), w'))
  /\ queries w' = queries w ++ [status_query r].
Proof.
  intros answer w'.
  assert (Hmiss : forall (row : list (string * Z)) key,
            contains row key = false -> getitem row key = Raise (KeyError key)).
  { intros row key Hc. unfold contains in Hc. unfold getitem.
    rewrite existsb_find in Hc.
    destruct (find (fun kv => String.eqb key (fst kv)) row);
      [discriminate | reflexivity]. }
  assert (Hhave : forall (row : list (string * Z)) key,
            contains row key = true -> exists v, getitem row key = Return v).
  { intros row key Hc. unfold contains in Hc. unfold getitem.
    rewrite existsb_find in Hc.
    destruct (find (fun kv => String.eqb key (fst kv)) row);
      [eexists; reflexivity | discriminate]. }
  unfold size_on_disk. run. fold (status_query r).
  rewrite connection_query_returns. fold answer w'.
  split; [intros ->; reflexivity|].
  split; [|split; [|apply after_query_frame]].
  - intros row -> Hc. run. rewrite (Hmiss row _ Hc). reflexivity.
  - intros row -> Hd Hi. run. destruct (Hhave row _ Hd) as [v ->].
    rewrite (Hmiss row _ Hi). reflexivity.
Qed.

(** With both lengths in the row, not negative and of a sum below 2^53,
    which the true division of the code turns into a float without
    rounding, size_on_disk returns the sum counted in units of 1024^2 bytes:
    the result times 1048576 is the sum; it is not negative and stays
    below 2^33. *)
Theorem size_on_disk_scale r w row data_length index_length :
  fetchone (snd (execute (server w) (status_query r))) = Some row ->
  getitem row "Data_length" = Return data_length ->
  getitem row "Index_length" = Return index_length ->
  0 <= data_length -> 0 <= index_length ->
  data_length + index_length < 2 ^ 53 ->
  exists q,
    size_on_disk r w = (Return q, after_query (status_query r) w)
    /\ (q * 1048576 == inject_Z (data_length + index_length))%Q
    /\ (0 <= q)%Q
    /\ (q < 8589934592)%Q.
Proof.
  intros Hrow Hd Hi H0 H1 Hsum. eexists.
  split; [apply (size_on_disk_value r w row); eassumption|].
  split; [|split].
  - unfold Qeq, Qdiv, Qmult, Qinv, inject_Z. cbn. lia.
  - unfold Qle, Qdiv, Qmult, Qinv, inject_Z. cbn. lia.
  - unfold Qlt, Qdiv, Qmult, Qinv, inject_Z. cbn.
    change (2 ^ 53) with 9007199254740992 in Hsum. lia.
Qed.

End Further_properties.

(** *** schema *)

Section Registration_properties.

Context `{Collab : Collaborators}.

Variable declare : string -> string -> Outcome string.
Variable load_dependencies : string -> M unit.
Variable operational_error : Server -> Query -> bool.

(** schema looks for the database first and sends CREATE DATABASE only when
    the search comes back empty; a database that is found is left alone.
    When the driver raises OperationalError on the creation, schema raises
    DataJointError in its place, and no decorator is returned. *)
Theorem schema_creates_only_when_absent database w :
  let found :=
    rowcount (snd (execute (server w) (show_databases_query database))) in
  let w1 := after_query (show_databases_query database) w in
  let w2 := after_query (create_database_query database) w1 in
  (found <> 0 ->
     schema operational_error database w = (Return tt, w1)
     /\ queries w1 = queries w ++ [show_databases_query database])
  /\ (found = 0 ->
        operational_error (server w1) (create_database_query database) = false ->
        schema operational_error database w = (Return tt, w2))
  /\ (found = 0 ->
        operational_error (server w1) (create_database_query database) = true ->
        schema operational_error database w
        = (Raise (creation_failed database), w2))
  /\ queries w2
     = queries w ++ [show_databases_query database;
                     create_database_query database].
Proof.
  intros found w1 w2. unfold schema, query_or_raise. run.
  rewrite connection_query_returns.
  split; [|split; [|split]].
  - intros Hf. apply Z.eqb_neq in Hf. unfold found in Hf. rewrite Hf.
    split; [reflexivity | apply after_query_frame].
  - intros Hf He. unfold found in Hf. unfold w1 in He. rewrite Hf.
    change (0 =? 0) with true. cbv beta iota. rewrite He. reflexivity.
  - intros Hf He. unfold found in Hf. unfold w1 in He. rewrite Hf.
    change (0 =? 0) with true. cbv beta iota. rewrite He. reflexivity.
  - unfold w2, w1.
    destruct (after_query_frame (create_database_query database)
                (after_query (show_databases_query database) w)) as [-> _].
    destruct (after_query_frame (show_databases_query database) w) as [-> _].
    rewrite <- app_assoc. reflexivity.
Qed.

(** The decorator makes a new Heading object for the class and declares
    the table only when that heading comes back empty.  When the table
    exists and has columns, the heading is loaded, the definition is not
    even compiled and no DDL is sent.  When the table does not exist, the
    definition is compiled: its exception, if any, is the outcome, and
    otherwise the DDL is sent, the Heading object staying empty.  The
    dependencies are loaded last, and the class is returned. *)
Theorem decorator_declares_when_absent database table_name definition w :
  let cls := mkRelation database table_name (List.length (heap w)) EmptyString in
  let w0 := snd (new_heading w) in
  let after_loading (w' : World) :=
    match load_dependencies (full_table_name cls) w' with
    | (Return _, w'') => (Return cls, w'')
    | (Raise e, w'') => (Raise e, w'')
    end in
  (table_exists cls w0 = true ->
     heading_bool (columns (snd (execute
                                   (server (after_query (existence_query cls) w0))
                                   (metadata_query cls)))) = true ->
     decorator declare load_dependencies database table_name definition w
     = after_loading (snd (heading cls w0))
     /\ queries (snd (heading cls w0))
        = queries w ++ [existence_query cls; metadata_query cls]
     /\ cached_heading cls (snd (heading cls w0))
        = columns (snd (execute (server (after_query (existence_query cls) w0))
                          (metadata_query cls))))
  /\ (table_exists cls w0 = false ->
        forall ddl,
          declare (full_table_name cls) definition = Return ddl ->
          let w2 := after_query (mkQuery ddl [] false)
                      (after_query (existence_query cls) w0) in
          decorator declare load_dependencies database table_name definition w
          = after_loading w2
          /\ queries w2 = queries w ++ [existence_query cls; mkQuery ddl [] false]
          /\ cached_heading cls w2 = [])
  /\ (table_exists cls w0 = false ->
        forall e,
          declare (full_table_name cls) definition = Raise e ->
          decorator declare load_dependencies database table_name definition w
          = (Raise e, after_query (existence_query cls) w0)).
Proof.
  intros cls w0 after_loading.
  assert (Hheap0 : heap w0 = heap w ++ [[]]) by reflexivity.
  assert (Hq0 : queries w0 = queries w) by reflexivity.
  assert (Hempty : cached_heading cls w0 = []).
  { unfold cached_heading. rewrite Hheap0. cbn [cls _heading].
    rewrite nth_middle. reflexivity. }
  assert (Hb : heading_bool (cached_heading cls w0) = false)
    by (rewrite Hempty; reflexivity).
  assert (Hstart :
            decorator declare load_dependencies database table_name definition w
            = bind (heading cls)
                (fun h =>
                   bind (if negb (heading_bool h)
                         then bind (lift (declare (full_table_name cls) definition))
                                (fun ddl =>
                                   bind (connection_query (mkQuery ddl [] false))
                                     (fun _ => ret tt))
                         else ret tt)
                     (fun _ =>
                        bind (load_dependencies (full_table_name cls))
                          (fun _ => ret cls))) w0) by reflexivity.
  split; [|split].
  - intros Hd Hcols.
    pose proof (heading_load cls w0 Hb Hd) as Hl. cbv zeta in Hl.
    assert (Href : (_heading cls < List.length (heap w0))%nat).
    { rewrite Hheap0, length_app. cbn. lia. }
    assert (Hc : cached_heading cls (snd (heading cls w0))
                 = columns (snd (execute
                                   (server (after_query (existence_query cls) w0))
                                   (metadata_query cls)))).
    { rewrite Hl. cbn [snd]. unfold cached_heading, write_heading.
      cbn [snd heap]. apply nth_assign.
      destruct (after_query_frame (metadata_query cls)
                  (after_query (existence_query cls) w0)) as (_ & _ & _ & -> & _).
      destruct (after_query_frame (existence_query cls) w0) as (_ & _ & _ & -> & _).
      exact Href. }
    split; [|split; [|exact Hc]].
    + rewrite Hstart. unfold bind at 1.
      rewrite Hl in Hc |- *. cbn [snd] in Hc |- *. rewrite Hc, Hcols.
      reflexivity.
    + destruct (heading_returns cls w0) as (h & w3 & Hh & _ & Hq & _).
      rewrite Hh. cbn [snd]. rewrite Hq, Hq0. unfold resolution_queries.
      rewrite Hb, Hd. reflexivity.
  - intros Hd ddl Hddl w2.
    pose proof (heading_absent cls w0 Hb Hd) as Ha.
    split; [|split].
    + rewrite Hstart. unfold bind at 1. rewrite Ha.
      cbn [heading_bool negb]. run. rewrite Hddl.
      rewrite connection_query_returns. reflexivity.
    + unfold w2.
      destruct (after_query_frame (mkQuery ddl [] false)
                  (after_query (existence_query cls) w0)) as [-> _].
      destruct (after_query_frame (existence_query cls) w0) as [-> _].
      rewrite Hq0, <- app_assoc. reflexivity.
    + unfold cached_heading, w2.
      destruct (after_query_frame (mkQuery ddl [] false)
                  (after_query (existence_query cls) w0)) as (_ & _ & _ & -> & _).
      destruct (after_query_frame (existence_query cls) w0) as (_ & _ & _ & -> & _).
      exact Hempty.
  - intros Hd e He.
    pose proof (heading_absent cls w0 Hb Hd) as Ha.
    rewrite Hstart. unfold bind at 1. rewrite Ha.
    cbn [heading_bool negb]. run. rewrite He. reflexivity.
Qed.

End Registration_properties.

(** ** The further properties on the lab database *)

(** A name with one dot is built, one without is refused and nothing is
    allocated. *)
Lemma FreeRelation_needs_one_dot_witness :
  count_char "." "`lab`.`scan`" = 1%nat
  /\ count_char "." "lab_session" = 0%nat
  /\ (1 < count_char "." "a.b.c")%nat
  /\ (exists r, FreeRelation "`lab`.`scan`" Lab.fresh
                = (Return r, snd (new_heading Lab.fresh))
                /\ parse_name "`lab`.`scan`" = Some (database r, table_name r))
  /\ FreeRelation "lab_session" Lab.fresh
     = (Raise (ValueError "not enough values to unpack (expected 2, got 1)"),
        Lab.fresh)
  /\ FreeRelation "a.b.c" Lab.fresh
     = (Raise (ValueError "too many values to unpack (expected 2)"), Lab.fresh).
Proof.
  assert (Hmany : (1 < count_char "." "a.b.c")%nat) by (cbn; lia).
  destruct (FreeRelation_needs_one_dot "`lab`.`scan`" Lab.fresh) as (Hone & _ & _).
  destruct (FreeRelation_needs_one_dot "lab_session" Lab.fresh) as (_ & Hnone & _).
  destruct (FreeRelation_needs_one_dot "a.b.c" Lab.fresh) as (_ & _ & Htoo).
  split; [reflexivity|]. split; [reflexivity|]. split; [exact Hmany|].
  split; [|split; [exact (Hnone eq_refl) | exact (Htoo Hmany)]].
  destruct (Hone eq_refl) as (r & Hr & Hp & _). exists r. split; assumption.
Defined.

Lemma FreeRelation_round_trip_witness :
  count_char "." (database Lab.scan) = O
  /\ count_char "." (table_name Lab.scan) = O
  /\ count_char "`" (database Lab.scan) = O
  /\ count_char "`" (table_name Lab.scan) = O
  /\ exists r' w',
       FreeRelation (full_table_name Lab.scan) Lab.fresh = (Return r', w')
       /\ database r' = "lab" /\ table_name r' = "scan"
       /\ _heading r' = 3%nat.
Proof.
  split; [reflexivity|]. split; [reflexivity|]. split; [reflexivity|].
  split; [reflexivity|].
  destruct (FreeRelation_round_trip Lab.scan Lab.fresh eq_refl eq_refl eq_refl
              eq_refl)
    as (r' & w' & Hrun & Hd & Ht & _ & _ & Href & _).
  exists r', w'. auto.
Defined.

Lemma descendants_fresh_relations_witness :
  descendants Lab.subject (Lab.without_session [])
  = (Return Lab.listed_without_session,
     snd (descendants Lab.subject (Lab.without_session [])))
  /\ declared_flags (server (Lab.without_session [])) Lab.listed
     = [true; false; true]
  /\ queries (snd (descendants Lab.subject (Lab.without_session [])))
     = [existence_query Lab.subject; existence_query Lab.session;
        existence_query Lab.scan]
  /\ heap (snd (descendants Lab.subject (Lab.without_session [])))
     = [[]; []; []; []; []; []]
  /\ NoDup (map _heading Lab.listed_without_session).
Proof.
  destruct (descendants_fresh_relations Lab.subject (Lab.without_session [])
              Lab.listed_without_session
              (snd (descendants Lab.subject (Lab.without_session []))) eq_refl)
    as (_ & _ & _ & Hq & Hheap & _ & Hnd & _).
  split; [reflexivity|]. split; [reflexivity|].
  split; [rewrite Hq; reflexivity|].
  split; [rewrite Hheap; reflexivity | exact Hnd].
Defined.

Lemma heading_absence_not_cached_witness :
  (_heading Lab.subject < List.length (heap Lab.absent))%nat
  /\ heading_bool (cached_heading Lab.subject Lab.absent) = false
  /\ table_exists Lab.subject Lab.absent = false
  /\ heading Lab.subject Lab.absent
     = (Return [], after_query (existence_query Lab.subject) Lab.absent)
  /\ exists w2,
       heading Lab.subject (after_query (existence_query Lab.subject) Lab.absent)
       = (Return [], w2)
       /\ queries w2 = [existence_query Lab.subject; existence_query Lab.subject].
Proof.
  assert (Href : (_heading Lab.subject < List.length (heap Lab.absent))%nat)
    by (cbn; lia).
  destruct (heading_absence_not_cached Lab.subject Lab.absent Href eq_refl eq_refl)
    as (Hfirst & Hagain & _).
  split; [exact Href|]. split; [reflexivity|]. split; [reflexivity|].
  split; [exact Hfirst|]. exact (Hagain eq_refl).
Defined.

(** The restricted relation holds the Heading object of subject and is
    served from it; session has its own, which stays empty. *)
Lemma heading_shared_object_witness :
  heading Lab.subject Lab.fresh
  = (Return Lab.subject_columns, snd (heading Lab.subject Lab.fresh))
  /\ heading_bool Lab.subject_columns = true
  /\ _heading Lab.subject_seven = _heading Lab.subject
  /\ _heading Lab.session <> _heading Lab.subject
  /\ heading Lab.subject_seven (snd (heading Lab.subject Lab.fresh))
     = (Return Lab.subject_columns, snd (heading Lab.subject Lab.fresh))
  /\ cached_heading Lab.session (snd (heading Lab.subject Lab.fresh)) = [].
Proof.
  assert (Hother : _heading Lab.session <> _heading Lab.subject)
    by discriminate.
  destruct (heading_shared_object Lab.subject Lab.subject_seven Lab.fresh
              Lab.subject_columns (snd (heading Lab.subject Lab.fresh))
              eq_refl eq_refl) as (Hshared & _).
  destruct (heading_shared_object Lab.subject Lab.session Lab.fresh
              Lab.subject_columns (snd (heading Lab.subject Lab.fresh))
              eq_refl eq_refl) as (_ & Hown).
  split; [reflexivity|]. split; [reflexivity|]. split; [reflexivity|].
  split; [exact Hother|]. split; [exact (Hshared eq_refl)|].
  rewrite (Hown Hother). reflexivity.
Defined.

Lemma insert_empty_record_witness :
  tuple_fields (Mapping []) = Some []
  /\ exists w',
       insert Lab.subject (Mapping []) false false Lab.loaded = (Return tt, w')
       /\ queries w'
          = [mkQuery "INSERT INTO `lab`.`subject` (``) VALUES ()" [] false].
Proof.
  split; [reflexivity|].
  destruct (insert_empty_record Lab.subject (Mapping []) false false Lab.loaded
              eq_refl) as (h & w1 & Hh & Hins).
  eexists. split; [exact Hins|].
  assert (Hw1 : w1 = Lab.loaded)
    by (assert (E : heading Lab.subject Lab.loaded
                    = (Return Lab.subject_columns, Lab.loaded)) by reflexivity;
        rewrite E in Hh; injection Hh as _ <-; reflexivity).
  rewrite Hw1. reflexivity.
Defined.

Lemma insert_sends_every_field_witness :
  tuple_fields Lab.mouse_with_photo = Some Lab.photo_fields
  /\ heading Lab.subject Lab.loaded = (Return Lab.subject_columns, Lab.loaded)
  /\ valid_fields Lab.subject_columns Lab.photo_fields = true
  /\ NoDup (heading_iter Lab.subject_columns)
  /\ NoDup (map fst Lab.photo_fields)
  /\ Permutation (columns_present Lab.subject_columns Lab.photo_fields)
       (map fst Lab.photo_fields).
Proof.
  assert (Hnames : NoDup (heading_iter Lab.subject_columns))
    by (repeat constructor; cbn; intuition discriminate).
  assert (Hkeys : NoDup (map fst Lab.photo_fields))
    by (repeat constructor; cbn; intuition discriminate).
  destruct (insert_sends_every_field Lab.subject Lab.mouse_with_photo
              Lab.photo_fields false false Lab.loaded Lab.subject_columns
              Lab.loaded eq_refl eq_refl eq_refl Hnames Hkeys)
    as (_ & Hperm & _).
  split; [reflexivity|]. split; [reflexivity|]. split; [reflexivity|].
  split; [exact Hnames|]. split; [exact Hkeys | exact Hperm].
Defined.

(** mouse goes in, the record with the unknown field weight ends the
    batch, the record after it is never sent. *)
Lemma iter_insert_stops_at_first_refusal_witness :
  cached_heading Lab.subject Lab.loaded = Lab.subject_columns
  /\ heading_bool Lab.subject_columns = true
  /\ forallb (valid_tuple Lab.subject_columns) [Lab.mouse] = true
  /\ valid_tuple Lab.subject_columns Lab.mouse_with_weight = false
  /\ exists e w',
       iter_insert Lab.subject
         ([Lab.mouse] ++ Lab.mouse_with_weight :: [Lab.mouse_with_photo])
         Lab.no_kwargs Lab.loaded = (Raise e, w')
       /\ queries w'
          = [statement Lab.subject Lab.subject_columns Lab.mouse_fields
               false false].
Proof.
  split; [reflexivity|]. split; [reflexivity|]. split; [reflexivity|].
  split; [reflexivity|].
  destruct (iter_insert_stops_at_first_refusal Lab.subject Lab.no_kwargs
              Lab.subject_columns [Lab.mouse] Lab.mouse_with_weight
              [Lab.mouse_with_photo] Lab.loaded eq_refl eq_refl eq_refl eq_refl)
    as (e & w' & Hrun & _ & Hq & _).
  exists e, w'. split; [exact Hrun | exact Hq].
Defined.

(** subject is dropped, and its relation still answers with the columns
    it had loaded. *)
Lemma drop_quick_keeps_heading_witness :
  heading_bool (cached_heading Lab.subject Lab.loaded) = true
  /\ table_exists Lab.subject Lab.loaded = true
  /\ table_exists Lab.subject Lab.absent = false
  /\ (exists w',
        drop_quick Lab.subject Lab.loaded = (Return tt, w')
        /\ queries w' = [existence_query Lab.subject; drop_query Lab.subject]
        /\ heading Lab.subject w' = (Return Lab.subject_columns, w'))
  /\ drop_quick Lab.subject Lab.absent
     = (Return tt, after_query (existence_query Lab.subject) Lab.absent).
Proof.
  split; [reflexivity|]. split; [reflexivity|]. split; [reflexivity|].
  destruct (drop_quick_keeps_heading Lab.subject Lab.loaded)
    as (w' & Hrun & Hyes & _ & _ & Hserved).
  destruct (drop_quick_keeps_heading Lab.subject Lab.absent)
    as (w0 & Hrun0 & _ & Hno & _).
  split.
  - exists w'. split; [exact Hrun|].
    destruct (Hyes eq_refl) as (Hq & _). destruct (Hserved eq_refl) as (Hh & _).
    split; [exact Hq | exact Hh].
  - destruct (Hno eq_refl) as (Hw0 & _). rewrite Hrun0, Hw0. reflexivity.
Defined.

(** maybe is no answer, so the question comes again; on no nothing is
    dropped. *)
Lemma drop_declined_witness :
  let w := Lab.with_safemode ["maybe"; "no"] Lab.fresh in
  let w1 := snd (descendants Lab.subject w) in
  let w2 := snd (confirm_drop Lab.listed w1) in
  descendants Lab.subject w = (Return Lab.listed, w1)
  /\ confirm_drop Lab.listed w1 = (Return false, w2)
  /\ drop Lab.subject w = (Return tt, w2)
  /\ queries w2 = queries w1 ++ map count_query Lab.listed
  /\ server w2 = Lab.all_tables
  /\ erd w2 = erd w.
Proof.
  intros w w1 w2.
  destruct (drop_declined Lab.subject w Lab.listed w1 w2 eq_refl eq_refl)
    as (lines & asked & Hrun & _ & Hq & _ & _ & _ & _ & He & _).
  split; [reflexivity|]. split; [reflexivity|]. split; [exact Hrun|].
  split; [exact Hq|]. split; [reflexivity | exact He].
Defined.

Lemma drop_malformed_name_witness :
  get_descendants (erd Lab.broken) (full_table_name Lab.subject)
  = [full_table_name Lab.subject] ++ "lab_session" :: [full_table_name Lab.scan]
  /\ List.length (built (List.length (heap Lab.broken))
                    [full_table_name Lab.subject]) = 1%nat
  /\ count_char "." "lab_session" <> 1%nat
  /\ exists msg w',
       drop Lab.subject Lab.broken = (Raise (ValueError msg), w')
       /\ queries w' = [existence_query Lab.subject]
       /\ console w' = console Lab.broken.
Proof.
  assert (Hbad : count_char "." "lab_session" <> 1%nat) by discriminate.
  destruct (drop_malformed_name Lab.subject Lab.broken
              [full_table_name Lab.subject] "lab_session"
              [full_table_name Lab.scan] eq_refl eq_refl Hbad)
    as (msg & w' & _ & Hrun & Hq & _ & _ & _ & Hc).
  split; [reflexivity|]. split; [reflexivity|]. split; [exact Hbad|].
  exists msg, w'. split; [exact Hrun|]. split; [|exact Hc].
  rewrite Hq. reflexivity.
Defined.

Lemma drop_nothing_listed_witness :
  get_descendants (erd Lab.unlisted) (full_table_name Lab.subject) = []
  /\ safemode Lab.unlisted = false
  /\ queries (snd (drop Lab.subject Lab.unlisted)) = []
  /\ server (snd (drop Lab.subject Lab.unlisted)) = Lab.all_tables.
Proof.
  destruct (drop_nothing_listed Lab.subject Lab.unlisted eq_refl eq_refl)
    as (Hrun & Hq & _).
  split; [reflexivity|]. split; [reflexivity|]. split; [exact Hq|].
  rewrite Hrun. reflexivity.
Defined.

Lemma size_on_disk_errors_witness :
  fetchone (snd (execute (server Lab.absent) (status_query Lab.subject))) = None
  /\ size_on_disk Lab.subject Lab.absent
     = (Raise (TypeError "'NoneType' object is not subscriptable"),
        after_query (status_query Lab.subject) Lab.absent).
Proof.
  split; [reflexivity|].
  destruct (size_on_disk_errors Lab.subject Lab.absent) as (Hnone & _).
  exact (Hnone eq_refl).
Defined.

Lemma size_on_disk_scale_witness :
  fetchone (snd (execute (server Lab.fresh) (status_query Lab.scan)))
  = Some [("Name", 0); ("Data_length", 49152); ("Index_length", 16384)]
  /\ 0 <= 49152 /\ 0 <= 16384 /\ 49152 + 16384 < 2 ^ 53
  /\ exists q,
       size_on_disk Lab.scan Lab.fresh
       = (Return q, after_query (status_query Lab.scan) Lab.fresh)
       /\ (q * 1048576 == 65536)%Q.
Proof.
  assert (H0 : 0 <= 49152) by lia. assert (H1 : 0 <= 16384) by lia.
  assert (Hsum : 49152 + 16384 < 2 ^ 53) by reflexivity.
  split; [reflexivity|]. split; [exact H0|]. split; [exact H1|].
  split; [exact Hsum|].
  destruct (size_on_disk_scale Lab.scan Lab.fresh
              [("Name", 0); ("Data_length", 49152); ("Index_length", 16384)]
              49152 16384 eq_refl eq_refl eq_refl H0 H1 Hsum)
    as (q & Hrun & Hq & _).
  exists q. split; [exact Hrun | exact Hq].
Defined.

(** No database is found on the lab server: CREATE DATABASE is sent; with
    the driver that refuses, schema ends in DataJointError. *)
Lemma schema_creates_only_when_absent_witness :
  rowcount (snd (execute (server Lab.fresh) (show_databases_query "lab"))) = 0
  /\ schema Lab.driver_obeys "lab" Lab.fresh
     = (Return tt,
        after_query (create_database_query "lab")
          (after_query (show_databases_query "lab") Lab.fresh))
  /\ schema Lab.driver_refuses "lab" Lab.fresh
     = (Raise (creation_failed "lab"),
        after_query (create_database_query "lab")
          (after_query (show_databases_query "lab") Lab.fresh)).
Proof.
  destruct (schema_creates_only_when_absent Lab.driver_obeys "lab" Lab.fresh)
    as (_ & Hmade & _).
  destruct (schema_creates_only_when_absent Lab.driver_refuses "lab" Lab.fresh)
    as (_ & _ & Hfailed & _).
  split; [reflexivity|].
  split; [exact (Hmade eq_refl eq_refl) | exact (Hfailed eq_refl eq_refl)].
Defined.

(** The class of subject bound where its table exists: no DDL; bound where
    it does not: the DDL is sent, or the empty definition is refused. *)
Lemma decorator_declares_when_absent_witness :
  table_exists (mkRelation "lab" "subject" 3 EmptyString)
    (snd (new_heading Lab.fresh)) = true
  /\ table_exists (mkRelation "lab" "subject" 3 EmptyString)
       (snd (new_heading Lab.absent)) = false
  /\ queries (snd (decorator Lab.lab_declare Lab.lab_load_dependencies
                     "lab" "subject" "subject_id : int" Lab.fresh))
     = [existence_query Lab.subject; metadata_query Lab.subject]
  /\ queries (snd (decorator Lab.lab_declare Lab.lab_load_dependencies
                     "lab" "subject" "subject_id : int" Lab.absent))
     = [existence_query Lab.subject;
        mkQuery "CREATE TABLE `lab`.`subject` (subject_id : int)" [] false]
  /\ fst (decorator Lab.lab_declare Lab.lab_load_dependencies
            "lab" "subject" EmptyString Lab.absent)
     = Raise (DataJointError "Table definition is empty").
Proof.
  destruct (decorator_declares_when_absent Lab.lab_declare
              Lab.lab_load_dependencies "lab" "subject" "subject_id : int"
              Lab.fresh) as (Hexists & _ & _).
  destruct (decorator_declares_when_absent Lab.lab_declare
              Lab.lab_load_dependencies "lab" "subject" "subject_id : int"
              Lab.absent) as (_ & Habsent & _).
  destruct (decorator_declares_when_absent Lab.lab_declare
              Lab.lab_load_dependencies "lab" "subject" EmptyString
              Lab.absent) as (_ & _ & Hrefused).
  destruct (Hexists eq_refl eq_refl) as (Hrun1 & _).
  destruct (Habsent eq_refl _ eq_refl) as (Hrun2 & _).
  split; [reflexivity|]. split; [reflexivity|].
  split; [rewrite Hrun1; reflexivity|].
  split; [rewrite Hrun2; reflexivity|].
  rewrite (Hrefused eq_refl _ eq_refl). reflexivity.
Defined.

Lemma insert_unsupported_type_witness :
  heading_bool (cached_heading Lab.subject Lab.loaded) = true
  /\ insert Lab.subject (Other "<class 'int'>") false true Lab.loaded
     = (Raise (DataJointError "Datatype <class 'int'> cannot be inserted"),
        Lab.loaded).
Proof.
  split; [reflexivity|].
  destruct (insert_unsupported_type Lab.subject "<class 'int'>" false true
              Lab.loaded) as (h & w1 & _ & Hins & _ & Hsame).
  rewrite Hins, (Hsame eq_refl). reflexivity.
Defined.


